(** * The mDNS server of nitroshare-desktop (src/plugins/mdns/mdnsserver.cpp)

    A shallow embedding of [MdnsServer]: the socket pair, the periodic
    bind-and-join routine [onSocketTimeout], the hostname prober
    ([checkHostname], [onMessageReceived], [onHostnameTimeout]) and the
    datagram reader [onReadyRead].  The methods are [void] and work on the
    members of the object, so each one is an action that maps the object to
    the updated object and the list of things it did to the outside world
    (signals emitted, datagrams written, multicast joins requested). *)

From stdpp Require Import base decidable option list strings gmap sets pretty.
From Stdlib Require Import ZArith Lia Ascii.

#[local] Set Warnings "-clear-no-such-hyp".

Local Open Scope Z_scope.

(** ** Qt types, as far as the server uses them *)

(** [QAbstractSocket::NetworkLayerProtocol]. *)
Inductive NetworkLayerProtocol :=
  | IPv4Protocol
  | IPv6Protocol
  | AnyIPProtocol
  | UnknownNetworkLayerProtocol.

#[global] Instance NetworkLayerProtocol_eq_dec : EqDecision NetworkLayerProtocol.
Proof. solve_decision. Defined.

(** [QHostAddress]: the family it reports through [protocol()] and its
    textual form. *)
Record QHostAddress := {
  addrProtocol : NetworkLayerProtocol;
  addrText : string
}.

#[global] Instance QHostAddress_eq_dec : EqDecision QHostAddress.
Proof. solve_decision. Defined.

(** [QHostAddress::AnyIPv4] and [QHostAddress::AnyIPv6]. *)
Definition AnyIPv4 : QHostAddress :=
  {| addrProtocol := IPv4Protocol; addrText := "0.0.0.0" |}.
Definition AnyIPv6 : QHostAddress :=
  {| addrProtocol := IPv6Protocol; addrText := "::" |}.

(** [QNetworkInterface]: [flags()] is a bit mask; [CanMulticast] is the
    bit 0x20 of [QNetworkInterface::InterfaceFlag]. *)
Record QNetworkInterface := {
  ifName : string;
  ifFlags : Z;
  addressEntries : list QHostAddress
}.

Definition CanMulticast : Z := 0x20.

(** The state of a [QUdpSocket] that is only ever bound, never connected. *)
Inductive SocketState :=
  | UnconnectedState
  | BoundState.

#[global] Instance SocketState_eq_dec : EqDecision SocketState.
Proof. solve_decision. Defined.

(** A [QUdpSocket]: its state and the multicast memberships it holds, each
    a pair of the group's address text and the interface's name. *)
Record QUdpSocket := {
  state : SocketState;
  memberships : gset (string * string)
}.

Inductive BindMode :=
  | ShareAddress
  | ReuseAddressHint.

(** A [QTimer]: whether it is single-shot, whether it is running, and the
    interval in milliseconds it was last started with. *)
Record QTimer := {
  singleShot : bool;
  isActive : bool;
  interval : Z
}.

Definition setSingleShot (b : bool) (t : QTimer) : QTimer :=
  {| singleShot := b; isActive := isActive t; interval := interval t |}.

Definition start (msec : Z) (t : QTimer) : QTimer :=
  {| singleShot := singleShot t; isActive := true; interval := msec |}.

(** What Qt does to a timer when it times out, before the slot runs: a
    single-shot timer stops, a repeating one keeps running. *)
Definition expire (t : QTimer) : QTimer :=
  {| singleShot := singleShot t;
     isActive := negb (singleShot t);
     interval := interval t |}.

(** ** DNS messages *)

(** [DnsMessage::Protocol]; it also names the socket of that family. *)
Inductive Protocol :=
  | IPv4
  | IPv6.

#[global] Instance Protocol_eq_dec : EqDecision Protocol.
Proof. solve_decision. Defined.

(** Modelled from the spec: dnsmessage.h, dnsrecord.h and dnsquery.h are not
    among the sources.  A record has a type (A, AAAA or other), a name and a
    TTL; a message carries its direction, its queries and records, an
    address, the IP family and a port.  [A] and [AAAA] are the DNS type
    codes. *)
Definition A : N := 1%N.
Definition AAAA : N := 28%N.

Record DnsRecord := {
  recName : string;
  recType : N;
  recTtl : N
}.

Record DnsQuery := {
  queryName : string;
  queryType : N
}.

Record DnsMessage := {
  address : QHostAddress;
  protocol : Protocol;
  port : N;
  isResponse : bool;
  queries : list DnsQuery;
  records : list DnsRecord
}.

Definition setAddress (a : QHostAddress) (m : DnsMessage) : DnsMessage :=
  {| address := a; protocol := protocol m; port := port m;
     isResponse := isResponse m; queries := queries m; records := records m |}.

Definition setProtocol (p : Protocol) (m : DnsMessage) : DnsMessage :=
  {| address := address m; protocol := p; port := port m;
     isResponse := isResponse m; queries := queries m; records := records m |}.

Definition setPort (n : N) (m : DnsMessage) : DnsMessage :=
  {| address := address m; protocol := protocol m; port := n;
     isResponse := isResponse m; queries := queries m; records := records m |}.

Definition addQuery (q : DnsQuery) (m : DnsMessage) : DnsMessage :=
  {| address := address m; protocol := protocol m; port := port m;
     isResponse := isResponse m; queries := queries m ++ [q];
     records := records m |}.

(** Modelled from the spec: the default-constructed [DnsMessage] (its
    constructor is in the absent dnsmessage.h) is an empty query. *)
Definition newDnsMessage : DnsMessage :=
  {| address := {| addrProtocol := UnknownNetworkLayerProtocol; addrText := "" |};
     protocol := IPv4; port := 0%N; isResponse := false;
     queries := []; records := [] |}.

(** Modelled from the spec: the constants of the absent dnsutil.h, section 6
    of the specification: port 5353, groups 224.0.0.251 and ff02::fb. *)
Definition MdnsPort : N := 5353%N.
Definition MdnsIpv4Address : QHostAddress :=
  {| addrProtocol := IPv4Protocol; addrText := "224.0.0.251" |}.
Definition MdnsIpv6Address : QHostAddress :=
  {| addrProtocol := IPv6Protocol; addrText := "ff02::fb" |}.

(** ** The operating system, as one maintenance run sees it *)

(** [allInterfaces] is [QNetworkInterface::allInterfaces()].
    [allAddresses] is [QNetworkInterface::allAddresses()], a static member
    of the class: called through an interface object it still returns the
    addresses of the whole host.  The three oracles say whether the
    operating system lets a bind, the [setsockopt] call and a join succeed. *)
Record Env := {
  allInterfaces : list QNetworkInterface;
  allAddresses : list QHostAddress;
  osBind : Protocol → QHostAddress → BindMode → bool;
  osSetsockopt : Protocol → bool;
  osJoin : Protocol → QHostAddress → QNetworkInterface → bool
}.

(** ** The server object *)

(** Modelled from the spec: the members are declared in the absent
    mdnsserver.h.  [mHostnameSuffix] is the suffix counter of the
    specification, which gives it no bound: an integer. *)
Record MdnsServer := {
  mSocketTimer : QTimer;
  mHostnameTimer : QTimer;
  mIpv4Socket : QUdpSocket;
  mIpv6Socket : QUdpSocket;
  mHostname : string;
  mHostnameConfirmed : bool;
  mHostnameSuffix : Z
}.

Inductive ErrorSource :=
  | SetsockoptError (sock : Protocol)
  | BindError (sock : Protocol).

(** What a method does to the outside world, in order. *)
Inductive Effect :=
  | EmitError (what : ErrorSource)
  | EmitHostnameConfirmed (hostname : string)
  | EmitMessageReceived (message : DnsMessage)
  | WriteDatagram (sock : Protocol) (packet : list Byte.byte)
      (to : QHostAddress) (toPort : N)
  | JoinMulticastGroup (sock : Protocol) (group : QHostAddress)
      (interface : QNetworkInterface).

(** A [void] method of the server. *)
Definition Act : Type := MdnsServer → MdnsServer * list Effect.

Definition skip : Act := λ st, (st, []).

Definition emit (e : Effect) : Act := λ st, (st, [e]).

Definition modify (f : MdnsServer → MdnsServer) : Act := λ st, (f st, []).

Definition andThen (a b : Act) : Act := λ st,
  let '(st1, out1) := a st in
  let '(st2, out2) := b st1 in
  (st2, out1 ++ out2).

Notation "a >> b" := (andThen a b) (at level 61, left associativity).

(** [if (c) a], with [c] read from the object. *)
Definition when (c : MdnsServer → bool) (a : Act) : Act := λ st,
  if c st then a st else skip st.

(** [foreach (x, l) body]. *)
Fixpoint foreach {X : Type} (l : list X) (body : X → Act) : Act :=
  match l with
  | [] => skip
  | x :: rest => body x >> foreach rest body
  end.

Definition socketOf (sock : Protocol) (st : MdnsServer) : QUdpSocket :=
  match sock with
  | IPv4 => mIpv4Socket st
  | IPv6 => mIpv6Socket st
  end.

Definition setSocket (sock : Protocol) (s : QUdpSocket) (st : MdnsServer)
  : MdnsServer :=
  match sock with
  | IPv4 =>
      {| mSocketTimer := mSocketTimer st; mHostnameTimer := mHostnameTimer st;
         mIpv4Socket := s; mIpv6Socket := mIpv6Socket st;
         mHostname := mHostname st;
         mHostnameConfirmed := mHostnameConfirmed st;
         mHostnameSuffix := mHostnameSuffix st |}
  | IPv6 =>
      {| mSocketTimer := mSocketTimer st; mHostnameTimer := mHostnameTimer st;
         mIpv4Socket := mIpv4Socket st; mIpv6Socket := s;
         mHostname := mHostname st;
         mHostnameConfirmed := mHostnameConfirmed st;
         mHostnameSuffix := mHostnameSuffix st |}
  end.

Definition setSocketTimer (t : QTimer) (st : MdnsServer) : MdnsServer :=
  {| mSocketTimer := t; mHostnameTimer := mHostnameTimer st;
     mIpv4Socket := mIpv4Socket st; mIpv6Socket := mIpv6Socket st;
     mHostname := mHostname st;
     mHostnameConfirmed := mHostnameConfirmed st;
     mHostnameSuffix := mHostnameSuffix st |}.

Definition setHostnameTimer (t : QTimer) (st : MdnsServer) : MdnsServer :=
  {| mSocketTimer := mSocketTimer st; mHostnameTimer := t;
     mIpv4Socket := mIpv4Socket st; mIpv6Socket := mIpv6Socket st;
     mHostname := mHostname st;
     mHostnameConfirmed := mHostnameConfirmed st;
     mHostnameSuffix := mHostnameSuffix st |}.

Definition setHostname (h : string) (st : MdnsServer) : MdnsServer :=
  {| mSocketTimer := mSocketTimer st; mHostnameTimer := mHostnameTimer st;
     mIpv4Socket := mIpv4Socket st; mIpv6Socket := mIpv6Socket st;
     mHostname := h;
     mHostnameConfirmed := mHostnameConfirmed st;
     mHostnameSuffix := mHostnameSuffix st |}.

Definition setHostnameConfirmed (b : bool) (st : MdnsServer) : MdnsServer :=
  {| mSocketTimer := mSocketTimer st; mHostnameTimer := mHostnameTimer st;
     mIpv4Socket := mIpv4Socket st; mIpv6Socket := mIpv6Socket st;
     mHostname := mHostname st;
     mHostnameConfirmed := b;
     mHostnameSuffix := mHostnameSuffix st |}.

Definition setHostnameSuffix (n : Z) (st : MdnsServer) : MdnsServer :=
  {| mSocketTimer := mSocketTimer st; mHostnameTimer := mHostnameTimer st;
     mIpv4Socket := mIpv4Socket st; mIpv6Socket := mIpv6Socket st;
     mHostname := mHostname st;
     mHostnameConfirmed := mHostnameConfirmed st;
     mHostnameSuffix := n |}.

Definition isBound (s : QUdpSocket) : bool :=
  bool_decide (state s = BoundState).

(** [socket.bind(address, MdnsPort, mode)]: the socket becomes bound when
    the operating system accepts the bind. *)
Definition bind (env : Env) (sock : Protocol) (a : QHostAddress)
    (mode : BindMode) (s : QUdpSocket) : QUdpSocket * bool :=
  if osBind env sock a mode
  then ({| state := BoundState; memberships := memberships s |}, true)
  else (s, false).

(** [socket.joinMulticastGroup(group, interface)]: Qt refuses the call on a
    socket that is not bound; otherwise the membership is added when the
    operating system accepts the join.  Joining a group twice leaves the
    memberships as they are. *)
Definition joinMulticastGroup (env : Env) (sock : Protocol)
    (group : QHostAddress) (interface : QNetworkInterface) : Act := λ st,
  let s := socketOf sock st in
  let s' :=
    if isBound s && osJoin env sock group interface
    then {| state := state s;
            memberships := {[ (addrText group, ifName interface) ]} ∪ memberships s |}
    else s in
  (setSocket sock s' st, [JoinMulticastGroup sock group interface]).

(** A socket once it is bound. *)
Definition bound (s : QUdpSocket) : QUdpSocket :=
  {| state := BoundState; memberships := memberships s |}.

(** The server after a datagram was written through the socket [sock]:
    [QUdpSocket::writeDatagram] binds a socket that is still in
    [UnconnectedState] (to a port the system picks) before it writes; a
    bound socket is used as it is. *)
Definition written (sock : Protocol) (st : MdnsServer) : MdnsServer :=
  if isBound (socketOf sock st) then st
  else setSocket sock (bound (socketOf sock st)) st.

(** [socket.writeDatagram(packet, to, toPort)]. *)
Definition writeDatagram (sock : Protocol) (packet : list Byte.byte)
    (to : QHostAddress) (toPort : N) : Act := λ st,
  (written sock st, [WriteDatagram sock packet to toPort]).

#[global] Arguments written : simpl never.

(** ** [QString::arg]

    A [string] stands for a [QString] whose characters are below 256; among
    these only ['0'] to ['9'] have a digit value. *)

Definition digitValue (c : ascii) : option nat :=
  let n := nat_of_ascii c in
  if ((48 <=? n) && (n <=? 57))%nat then Some (n - 48)%nat else None.

(** A template cut into plain characters and place markers; a marker keeps
    its number and the text it was written as ([%2], [%02], [%L2]). *)
Inductive Piece :=
  | Plain (c : ascii)
  | Marker (escape : nat) (text : string).

(** The scan of [findArgEscapes]: a percent sign, an optional [L], one
    digit and a second one when it follows make a marker; a percent sign
    followed by anything else is a plain character and the scan goes on
    right behind it. *)
Fixpoint pieces (s : string) : list Piece :=
  match s with
  | EmptyString => []
  | String c r1 =>
      if Ascii.eqb c "%" then
        match r1 with
        | EmptyString => [Plain c]
        | String d1 r2 =>
            if Ascii.eqb d1 "L" then
              match r2 with
              | EmptyString => Plain c :: pieces r1
              | String d2 r3 =>
                  match digitValue d2 with
                  | None => Plain c :: pieces r1
                  | Some n1 =>
                      match r3 with
                      | EmptyString =>
                          [Marker n1 (String c (String d1 (String d2 "")))]
                      | String d3 r4 =>
                          match digitValue d3 with
                          | None =>
                              Marker n1 (String c (String d1 (String d2 "")))
                              :: pieces r3
                          | Some n2 =>
                              Marker (10 * n1 + n2)
                                (String c (String d1 (String d2 (String d3 ""))))
                              :: pieces r4
                          end
                      end
                  end
              end
            else
              match digitValue d1 with
              | None => Plain c :: pieces r1
              | Some n1 =>
                  match r2 with
                  | EmptyString => [Marker n1 (String c (String d1 ""))]
                  | String d2 r3 =>
                      match digitValue d2 with
                      | None => Marker n1 (String c (String d1 "")) :: pieces r2
                      | Some n2 =>
                          Marker (10 * n1 + n2)
                            (String c (String d1 (String d2 "")))
                          :: pieces r3
                      end
                  end
              end
        end
      else Plain c :: pieces r1
  end.

(** The lowest marker number of a template, if it has a marker. *)
Fixpoint minEscape (ps : list Piece) : option nat :=
  match ps with
  | [] => None
  | Plain _ :: rest => minEscape rest
  | Marker n _ :: rest =>
      match minEscape rest with
      | None => Some n
      | Some m => Some (Nat.min n m)
      end
  end.

(** [replaceArgEscapes] with field width 0: every marker with the number
    [m] becomes [a], the rest stays as written. *)
Fixpoint render (m : nat) (a : string) (ps : list Piece) : string :=
  match ps with
  | [] => ""
  | Plain c :: rest => String c (render m a rest)
  | Marker n text :: rest =>
      (if (n =? m)%nat then a else text) +:+ render m a rest
  end.

(** [template.arg(a)]: the markers with the lowest number are replaced; a
    template without a marker is returned as it is. *)
Definition arg (template a : string) : string :=
  match minEscape (pieces template) with
  | None => template
  | Some m => render m a (pieces template)
  end.

(** The string holds no percent sign. *)
Fixpoint noPercent (s : string) : bool :=
  match s with
  | EmptyString => true
  | String c rest => negb (Ascii.eqb c "%") && noPercent rest
  end.

(** The plain characters of a string, as pieces. *)
Fixpoint plain (s : string) : list Piece :=
  match s with
  | EmptyString => []
  | String c rest => Plain c :: plain rest
  end.

#[global] Arguments arg : simpl never.

(** ** Sample surroundings for the examples at the end *)

Definition fe80 : QHostAddress :=
  {| addrProtocol := IPv6Protocol; addrText := "fe80::1" |}.

Definition lan4 : QHostAddress :=
  {| addrProtocol := IPv4Protocol; addrText := "192.168.1.2" |}.

(** An interface that is up, running and multicast-capable and carries one
    IPv6 address and no IPv4 address. *)
Definition eth6 : QNetworkInterface :=
  {| ifName := "eth0"; ifFlags := 0x23; addressEntries := [fe80] |}.

(** The same with one IPv4 address and no IPv6 address. *)
Definition eth4 : QNetworkInterface :=
  {| ifName := "eth0"; ifFlags := 0x23; addressEntries := [lan4] |}.

(** A host whose only interface is [eth6]; binds and joins succeed. *)
Definition host6 : Env :=
  {| allInterfaces := [eth6]; allAddresses := [fe80];
     osBind := λ _ _ _, true; osSetsockopt := λ _, true;
     osJoin := λ _ _ _, true |}.

(** A host whose only interface is [eth4]; binds and joins succeed. *)
Definition host4 : Env :=
  {| allInterfaces := [eth4]; allAddresses := [lan4];
     osBind := λ _ _ _, true; osSetsockopt := λ _, true;
     osJoin := λ _ _ _, true |}.

(** The null address of a default-constructed [QHostAddress]. *)
Definition nullAddress : QHostAddress :=
  {| addrProtocol := UnknownNetworkLayerProtocol; addrText := "" |}.

Definition peer6 : QHostAddress :=
  {| addrProtocol := IPv6Protocol; addrText := "fe80::2" |}.

(** A response that claims [name] with an A record of TTL 120. *)
Definition claimOf (name : string) : DnsMessage :=
  {| address := {| addrProtocol := UnknownNetworkLayerProtocol; addrText := "" |};
     protocol := IPv4; port := 0%N; isResponse := true; queries := [];
     records := [{| recName := name; recType := A; recTtl := 120%N |}] |}.

(** A response with an unrelated record, then two records that claim
    ["host.local."], then one that claims ["host-1.local."]. *)
Definition crowded : DnsMessage :=
  {| address := {| addrProtocol := UnknownNetworkLayerProtocol; addrText := "" |};
     protocol := IPv4; port := 0%N; isResponse := true; queries := [];
     records :=
       [{| recName := "printer.local."; recType := A; recTtl := 120%N |};
        {| recName := "host.local."; recType := AAAA; recTtl := 120%N |};
        {| recName := "host.local."; recType := A; recTtl := 120%N |};
        {| recName := "host-1.local."; recType := A; recTtl := 120%N |}] |}.

(** A response whose records all miss: wrong type, other name, TTL zero. *)
Definition harmless : DnsMessage :=
  {| address := {| addrProtocol := UnknownNetworkLayerProtocol; addrText := "" |};
     protocol := IPv4; port := 0%N; isResponse := true; queries := [];
     records :=
       [{| recName := "host.local."; recType := 16%N; recTtl := 120%N |};
        {| recName := "printer.local."; recType := A; recTtl := 120%N |};
        {| recName := "host.local."; recType := A; recTtl := 0%N |}] |}.

(** A stand-in codec: the first byte of a packet picks the message. *)
Definition sampleToPacket (_ : DnsMessage) : list Byte.byte := [Byte.x00].

Definition sampleFromPacket (packet : list Byte.byte) : option DnsMessage :=
  match packet with
  | Byte.x01 :: _ => Some (claimOf "host.local.")
  | Byte.x02 :: _ => Some crowded
  | Byte.x03 :: _ => Some harmless
  | _ => None
  end.

(** A host like [host6] on which every bind is refused. *)
Definition hostBusy : Env :=
  {| allInterfaces := [eth6]; allAddresses := [fe80];
     osBind := λ _ _ _, false; osSetsockopt := λ _, false;
     osJoin := λ _ _ _, true |}.

(** A host like [host6] on which every join is refused. *)
Definition host6deaf : Env :=
  {| allInterfaces := [eth6]; allAddresses := [fe80];
     osBind := λ _ _ _, true; osSetsockopt := λ _, true;
     osJoin := λ _ _ _, false |}.

(** A host like [host6] on which only the IPv6 socket can be bound. *)
Definition host6only : Env :=
  {| allInterfaces := [eth6]; allAddresses := [fe80];
     osBind := λ sock _ _, bool_decide (sock = IPv6);
     osSetsockopt := λ _, true;
     osJoin := λ _ _ _, true |}.

(** ** The methods of [MdnsServer] *)

Section Server.

(** Whether the file is compiled with [Q_OS_UNIX] defined. *)
Variable Q_OS_UNIX : bool.

(** [QHostInfo::localHostName()], the name of the machine. *)
Variable localHostName : string.

(** The codec of the absent dnsutil: [DnsUtil::toPacket] and
    [DnsUtil::fromPacket], the latter with [None] for a [false] result. *)
Variable toPacket : DnsMessage → list Byte.byte.
Variable fromPacket : list Byte.byte → option DnsMessage.

(** [sendMessage]: the packet goes to the socket of the message's family. *)
Definition sendMessage (message : DnsMessage) : Act :=
  let packet := toPacket message in
  when (λ _, bool_decide (protocol message = IPv4))
    (writeDatagram IPv4 packet (address message) (port message))
  >> when (λ _, bool_decide (protocol message = IPv6))
    (writeDatagram IPv6 packet (address message) (port message)).

(** The multicast group of a family: the choice of line 188. *)
Definition mdnsAddress (p : Protocol) : QHostAddress :=
  if bool_decide (p = IPv4) then MdnsIpv4Address else MdnsIpv6Address.

(** [checkHostname]: a type A query for the current candidate. *)
Definition probe (hostname : string) (p : Protocol) : DnsMessage :=
  let query := {| queryName := hostname; queryType := A |} in
  addQuery query
    (setPort MdnsPort (setProtocol p (setAddress (mdnsAddress p) newDnsMessage))).

Definition checkHostname (p : Protocol) : Act := λ st,
  sendMessage (probe (mHostname st) p) st.

(** [bindSocket].  Under [Q_OS_UNIX] a share-mode bind comes first; when it
    fails [setsockopt] is called (an error is emitted when it returns
    non-zero) and the bind is tried again with [ReuseAddressHint].  Without
    [Q_OS_UNIX] only the last bind remains. *)
Definition bindReuse (env : Env) (sock : Protocol) (a : QHostAddress) : Act :=
  λ st,
  let '(s, ok) := bind env sock a ReuseAddressHint (socketOf sock st) in
  (setSocket sock s st, if ok then [] else [EmitError (BindError sock)]).

Definition bindSocket (env : Env) (sock : Protocol) (a : QHostAddress) : Act :=
  if Q_OS_UNIX then
    λ st,
    let '(s, ok) := bind env sock a ShareAddress (socketOf sock st) in
    if ok then (setSocket sock s st, [])
    else
      (when (λ _, negb (osSetsockopt env sock))
         (emit (EmitError (SetsockoptError sock)))
       >> bindReuse env sock a) (setSocket sock s st)
  else bindReuse env sock a.

(** The inner loop of [onSocketTimeout] over [interface.allAddresses()]. *)
Definition scanAddresses (addresses : list QHostAddress) : bool * bool :=
  foldl
    (λ '(ipv4Address, ipv6Address) a,
       (ipv4Address || bool_decide (addrProtocol a = IPv4Protocol),
        ipv6Address || bool_decide (addrProtocol a = IPv6Protocol)))
    (false, false) addresses.

(** The body of the loop over the interfaces, lines 87 to 100. *)
Definition joinOn (env : Env) (ipv4Bound ipv6Bound : bool)
    (interface : QNetworkInterface) : Act :=
  if negb (Z.land (ifFlags interface) CanMulticast =? 0) then
    let '(ipv4Address, ipv6Address) := scanAddresses (allAddresses env) in
    when (λ _, ipv4Bound && ipv6Address)
      (joinMulticastGroup env IPv4 MdnsIpv4Address interface)
    >> when (λ _, ipv6Bound && ipv6Address)
      (joinMulticastGroup env IPv6 MdnsIpv6Address interface)
  else skip.

(** Lines 104 to 109: probing starts from the bare name. *)
Definition beginChecking : Act :=
  when (λ st, negb (mHostnameConfirmed st))
    (modify (setHostname (localHostName +:+ ".local."))
     >> modify (setHostnameSuffix 1)
     >> checkHostname IPv4
     >> checkHostname IPv6).

(** Lines 75 to 80: bind the sockets that are not bound. *)
Definition bindSockets (env : Env) : Act :=
  when (λ st, negb (isBound (mIpv4Socket st))) (bindSocket env IPv4 AnyIPv4)
  >> when (λ st, negb (isBound (mIpv6Socket st))) (bindSocket env IPv6 AnyIPv6).

(** Lines 81 to 110: with a socket bound, join on every interface and
    start checking host names. *)
Definition joinGroups (env : Env) : Act := λ st,
  let ipv4Bound := isBound (mIpv4Socket st) in
  let ipv6Bound := isBound (mIpv6Socket st) in
  when (λ _, ipv4Bound || ipv6Bound)
    (foreach (allInterfaces env) (joinOn env ipv4Bound ipv6Bound)
     >> beginChecking) st.

Definition onSocketTimeout (env : Env) : Act :=
  bindSockets env
  >> joinGroups env
  >> modify (λ st, setSocketTimer (start (60 * 1000) (mSocketTimer st)) st).

Definition onHostnameTimeout : Act :=
  modify (setHostnameConfirmed true)
  >> (λ st, emit (EmitHostnameConfirmed (mHostname st)) st).

(** The test of lines 145 and 146 on one record. *)
Definition conflicts (hostname : string) (record : DnsRecord) : bool :=
  (bool_decide (recType record = A) || bool_decide (recType record = AAAA))
  && String.eqb (recName record) hostname
  && negb (recTtl record =? 0)%N.

(** Lines 148 to 151.  [QString("-%1").arg(mHostnameSuffix++)] puts the
    decimal form of the counter before the increment behind the dash; the
    two [arg] calls of line 149 then fill the template ["%1%2.local."],
    first with the machine name, then with that suffix. *)
Definition retry : Act :=
  (λ st,
     let suffix := arg "-%1" (pretty (mHostnameSuffix st)) in
     (modify (setHostnameSuffix (mHostnameSuffix st + 1))
      >> modify (setHostname (arg (arg "%1%2.local." localHostName) suffix))) st)
  >> checkHostname IPv4
  >> checkHostname IPv6.

(** The loop of [onMessageReceived] over the records, with its [break]. *)
Fixpoint scanRecords (rs : list DnsRecord) : Act :=
  match rs with
  | [] => skip
  | record :: rest =>
      λ st,
      if conflicts (mHostname st) record then
        if negb (mHostnameConfirmed st) then retry st
        else scanRecords rest st
      else scanRecords rest st
  end.

Definition onMessageReceived (message : DnsMessage) : Act :=
  when (λ _, isResponse message) (scanRecords (records message)).

(** [onReadyRead] for the datagram [(packet, a, p)] that [readDatagram]
    hands over.  The signal [messageReceived] reaches the server's own
    slot [onMessageReceived], connected to it in the constructor. *)
Definition annotate (a : QHostAddress) (p : N) (message : DnsMessage)
  : DnsMessage :=
  setPort p
    (setProtocol
      (if bool_decide (addrProtocol a = IPv4Protocol) then IPv4 else IPv6)
      (setAddress a message)).

Definition onReadyRead (packet : list Byte.byte) (a : QHostAddress) (p : N)
  : Act :=
  match fromPacket packet with
  | Some message =>
      let message := annotate a p message in
      emit (EmitMessageReceived message) >> onMessageReceived message
  | None => skip
  end.

(** The constructor: the members before its body runs ([mHostnameSuffix]
    has no initialiser, so it holds whatever [junk] was in memory), then
    the two [setSingleShot] calls and the first [onSocketTimeout]. *)
Definition newQTimer : QTimer :=
  {| singleShot := false; isActive := false; interval := 0 |}.

Definition newQUdpSocket : QUdpSocket :=
  {| state := UnconnectedState; memberships := ∅ |}.

Definition members (junk : Z) : MdnsServer :=
  {| mSocketTimer := newQTimer; mHostnameTimer := newQTimer;
     mIpv4Socket := newQUdpSocket; mIpv6Socket := newQUdpSocket;
     mHostname := ""; mHostnameConfirmed := false;
     mHostnameSuffix := junk |}.

Definition construct (env : Env) (junk : Z) : MdnsServer * list Effect :=
  (modify (λ st, setSocketTimer (setSingleShot true (mSocketTimer st)) st)
   >> modify (λ st, setHostnameTimer (setSingleShot true (mHostnameTimer st)) st)
   >> onSocketTimeout env) (members junk).

(** ** The event loop *)

(** What the event loop can deliver: a timeout of one of the two timers,
    or a datagram to read on one of the two sockets. *)
Inductive Event :=
  | SocketTimeout (env : Env)
  | HostnameTimeout
  | ReadyRead (sock : Protocol) (packet : list Byte.byte)
      (from : QHostAddress) (fromPort : N).

(** A timer times out only while it runs; a socket is readable only
    while it is bound. *)
Definition enabled (st : MdnsServer) (ev : Event) : bool :=
  match ev with
  | SocketTimeout _ => isActive (mSocketTimer st)
  | HostnameTimeout => isActive (mHostnameTimer st)
  | ReadyRead sock _ _ _ => isBound (socketOf sock st)
  end.

Definition handle (ev : Event) : Act :=
  match ev with
  | SocketTimeout env =>
      modify (λ st, setSocketTimer (expire (mSocketTimer st)) st)
      >> onSocketTimeout env
  | HostnameTimeout =>
      modify (λ st, setHostnameTimer (expire (mHostnameTimer st)) st)
      >> onHostnameTimeout
  | ReadyRead _ packet a p => onReadyRead packet a p
  end.

Definition step (st : MdnsServer) (ev : Event)
  : option (MdnsServer * list Effect) :=
  if enabled st ev then Some (handle ev st) else None.

Fixpoint run (st : MdnsServer) (evs : list Event)
  : option (MdnsServer * list Effect) :=
  match evs with
  | [] => Some (st, [])
  | ev :: rest =>
      match step st ev with
      | Some (st1, out1) =>
          match run st1 rest with
          | Some (st2, out2) => Some (st2, out1 ++ out2)
          | None => None
          end
      | None => None
      end
  end.

(** ** Notions the properties are stated with *)

(** The datagram that carries the probe for [hostname] on family [p]. *)
Definition probeDatagram (hostname : string) (p : Protocol) : Effect :=
  WriteDatagram p (toPacket (probe hostname p)) (mdnsAddress p) MdnsPort.

(** The server after a probe was written on each family, IPv4 first. *)
Definition probed (st : MdnsServer) : MdnsServer :=
  written IPv6 (written IPv4 st).

#[local] Arguments probed : simpl never.

(** The candidate that [retry] builds from the counter value [n]. *)
Definition retryName (n : Z) : string :=
  arg (arg "%1%2.local." localHostName) (arg "-%1" (pretty n)).

(** The machine name with the suffix [n] written out: [base-n.local.]. *)
Definition suffixed (n : Z) : string :=
  localHostName +:+ ("-" +:+ pretty n) +:+ ".local.".

(** The candidate that goes with the counter value [n]: the bare name
    while the counter is 1, afterwards the name with the suffix the counter
    held before its last increment. *)
Definition candidate (n : Z) : string :=
  if n =? 1 then localHostName +:+ ".local." else suffixed (n - 1).

(** The candidate as the specification words it: the suffix written in
    the name is the counter itself, the bare name going with the initial
    value 1. *)
Definition candidate_spec (n : Z) : string :=
  if n =? 1 then localHostName +:+ ".local." else suffixed n.

(** Probing has started: the counter is at least 1 and the candidate is
    the one that goes with it. *)
Definition named (st : MdnsServer) : Prop :=
  1 ≤ mHostnameSuffix st ∧ mHostname st = candidate (mHostnameSuffix st).

(** Nothing has been bound yet: no candidate, no confirmation pending. *)
Definition idle (st : MdnsServer) : Prop :=
  mHostname st = "" ∧
  isBound (mIpv4Socket st) = false ∧ isBound (mIpv6Socket st) = false ∧
  mHostnameConfirmed st = false ∧ isActive (mHostnameTimer st) = false.

Definition isConfirmation (e : Effect) : bool :=
  match e with EmitHostnameConfirmed _ => true | _ => false end.

Definition notConfirmation (e : Effect) : Prop := isConfirmation e = false.

(** How often [hostnameConfirmed] is emitted in an output. *)
Definition confirmations (out : list Effect) : nat :=
  length (filter (λ e, isConfirmation e = true) out).

(** The hostname timer is single-shot, and it does not run once the
    hostname is confirmed. *)
Definition oneShot (st : MdnsServer) : Prop :=
  singleShot (mHostnameTimer st) = true ∧
  (mHostnameConfirmed st = true → isActive (mHostnameTimer st) = false).

Definition isTick (ev : Event) : bool :=
  match ev with SocketTimeout _ => true | _ => false end.

Definition sockets (st : MdnsServer) : QUdpSocket * QUdpSocket :=
  (mIpv4Socket st, mIpv6Socket st).

(** The family of the addresses a socket receives from. *)
Definition familyOf (sock : Protocol) : NetworkLayerProtocol :=
  match sock with IPv4 => IPv4Protocol | IPv6 => IPv6Protocol end.

(** An action changes the object only within [R]. *)
Definition respects (R : relation MdnsServer) (a : Act) : Prop :=
  ∀ st, R st (a st).1.

(** Every effect of an action satisfies [P]. *)
Definition emits (P : Effect → Prop) (a : Act) : Prop :=
  ∀ st, Forall P (a st).2.

(** Everything but the two sockets is as before. *)
Definition frameSockets (st st' : MdnsServer) : Prop :=
  mSocketTimer st' = mSocketTimer st ∧
  mHostnameTimer st' = mHostnameTimer st ∧
  mHostname st' = mHostname st ∧
  mHostnameConfirmed st' = mHostnameConfirmed st ∧
  mHostnameSuffix st' = mHostnameSuffix st.

(** The event is a response with a record that conflicts with the
    current candidate. *)
Definition isConflict (st : MdnsServer) (ev : Event) : bool :=
  match ev with
  | ReadyRead _ packet _ _ =>
      match fromPacket packet with
      | Some message =>
          isResponse message
          && existsb (conflicts (mHostname st)) (records message)
      | None => false
      end
  | _ => false
  end.

(** The number of conflicting responses that a run handles while the
    hostname is unconfirmed. *)
Fixpoint conflictsSeen (st : MdnsServer) (evs : list Event) : nat :=
  match evs with
  | [] => 0
  | ev :: rest =>
      match step st ev with
      | Some (st1, _) =>
          ((if isConflict st ev && negb (mHostnameConfirmed st) then 1 else 0)
           + conflictsSeen st1 rest)%nat
      | None => 0%nat
      end
  end.

(** The names that [hostnameConfirmed] announces in an output all have
    the form of a candidate. *)
Definition announcesCandidates (out : list Effect) : Prop :=
  ∀ h, EmitHostnameConfirmed h ∈ out → ∃ n, 1 ≤ n ∧ h = candidate n.

(** Whether [bindSocket] ends with the socket bound. *)
Definition bindResult (env : Env) (sock : Protocol) (a : QHostAddress) : bool :=
  if Q_OS_UNIX
  then osBind env sock a ShareAddress || osBind env sock a ReuseAddressHint
  else osBind env sock a ReuseAddressHint.

(** The wildcard address [onSocketTimeout] binds a socket to. *)
Definition anyAddress (sock : Protocol) : QHostAddress :=
  match sock with IPv4 => AnyIPv4 | IPv6 => AnyIPv6 end.

(** An action only adds memberships: it leaves the state of each socket
    alone, and to sockets bound as [bb] says it adds a set of memberships
    that does not depend on the ones they hold. *)
Definition adds (bb : Protocol → bool) (a : Act) : Prop :=
  (∀ st sock, state (socketOf sock (a st).1) = state (socketOf sock st)) ∧
  ∃ K : Protocol → gset (string * string),
    ∀ st sock,
      (∀ s, isBound (socketOf s st) = bb s) →
      memberships (socketOf sock (a st).1) = memberships (socketOf sock st) ∪ K sock.

(** Where a run of the event loop ends and what it puts out; the starting
    state and no output when an event of the list cannot happen. *)
Definition stateAfter (st : MdnsServer) (evs : list Event) : MdnsServer :=
  match run st evs with Some (st', _) => st' | None => st end.

Definition outputOf (st : MdnsServer) (evs : list Event) : list Effect :=
  match run st evs with Some (_, out) => out | None => [] end.

(** ** Notions for the further properties *)

Definition isError (e : Effect) : bool :=
  match e with EmitError _ => true | _ => false end.

Definition isWrite (e : Effect) : bool :=
  match e with WriteDatagram _ _ _ _ => true | _ => false end.

Definition isJoin (e : Effect) : bool :=
  match e with JoinMulticastGroup _ _ _ => true | _ => false end.

(** The errors [bindSocket] emits, read off lines 165 to 178. *)
Definition bindErrors (env : Env) (sock : Protocol) (a : QHostAddress)
  : list Effect :=
  if Q_OS_UNIX then
    if osBind env sock a ShareAddress then []
    else (if osSetsockopt env sock then []
          else [EmitError (SetsockoptError sock)])
         ++ (if osBind env sock a ReuseAddressHint then []
             else [EmitError (BindError sock)])
  else if osBind env sock a ReuseAddressHint then []
       else [EmitError (BindError sock)].

(** The joins the loop body requests on one interface. *)
Definition joinRequests (env : Env) (ipv4Bound ipv6Bound : bool)
    (interface : QNetworkInterface) : list Effect :=
  if negb (Z.land (ifFlags interface) CanMulticast =? 0)
     && existsb (λ a, bool_decide (addrProtocol a = IPv6Protocol))
          (allAddresses env)
  then (if ipv4Bound
        then [JoinMulticastGroup IPv4 MdnsIpv4Address interface] else [])
       ++ (if ipv6Bound
           then [JoinMulticastGroup IPv6 MdnsIpv6Address interface] else [])
  else [].


(** No socket got unbound and no membership was lost. *)
Definition socketsGrow (st st' : MdnsServer) : Prop :=
  ∀ sock,
    (isBound (socketOf sock st) = true → isBound (socketOf sock st') = true) ∧
    memberships (socketOf sock st) ⊆ memberships (socketOf sock st').

(** Two surroundings that differ at most in how joins are answered. *)
Definition sameButJoins (env env' : Env) : Prop :=
  allInterfaces env' = allInterfaces env ∧
  allAddresses env' = allAddresses env ∧
  (∀ sock a mode, osBind env' sock a mode = osBind env sock a mode) ∧
  (∀ sock, osSetsockopt env' sock = osSetsockopt env sock).

(** The probes of the bare name, as [beginChecking] sends them. *)
Definition bareProbes : list Effect :=
  [probeDatagram (localHostName +:+ ".local.") IPv4;
   probeDatagram (localHostName +:+ ".local.") IPv6].

(** The socket timer is single-shot and runs with an interval of one minute. *)
Definition ticking (st : MdnsServer) : Prop :=
  singleShot (mSocketTimer st) = true ∧ isActive (mSocketTimer st) = true ∧
  interval (mSocketTimer st) = 60000.

(** ** Basic facts about the actions *)

Lemma andThen_fst (a b : Act) st : (andThen a b st).1 = (b (a st).1).1.
Proof. unfold andThen. destruct (a st) as [st1 o1]. simpl. by destruct (b st1). Qed.

Lemma andThen_snd (a b : Act) st :
  (andThen a b st).2 = (a st).2 ++ (b (a st).1).2.
Proof. unfold andThen. destruct (a st) as [st1 o1]. simpl. by destruct (b st1). Qed.

(** *** Filling the template of the candidate *)

Lemma append_String c (s t : string) : String c s +:+ t = String c (s +:+ t).
Proof. done. Qed.

Lemma append_empty_r (s : string) : s +:+ "" = s.
Proof. induction s as [|c s IH]; [done|]. by rewrite append_String, IH. Qed.

Lemma append_assoc (s t u : string) : (s +:+ t) +:+ u = s +:+ t +:+ u.
Proof. induction s as [|c s IH]; [done|]. by rewrite !append_String, IH. Qed.

Lemma pieces_noPercent s t :
  noPercent s = true → pieces (s +:+ t) = plain s ++ pieces t.
Proof.
  induction s as [|c s IH]; [done|].
  cbn [noPercent]. intros [Hc Hs]%andb_true_iff. apply negb_true_iff in Hc.
  rewrite append_String. cbn [pieces plain app]. rewrite Hc. f_equal. by apply IH.
Qed.

Lemma minEscape_plain s ps : minEscape (plain s ++ ps) = minEscape ps.
Proof. induction s as [|c s IH]; [done|]. apply IH. Qed.

Lemma render_plain m a s ps : render m a (plain s ++ ps) = s +:+ render m a ps.
Proof.
  induction s as [|c s IH]; [done|].
  cbn [plain app render]. by rewrite IH, append_String.
Qed.

(** Line 149, first [arg]: the machine name takes the place of [%1]. *)
Lemma arg_machine_name name : arg "%1%2.local." name = name +:+ "%2.local.".
Proof. done. Qed.

(** Line 148: the number takes the place of [%1] behind the dash. *)
Lemma arg_dash a : arg "-%1" a = "-" +:+ a.
Proof.
  unfold arg. change (pieces "-%1") with [Plain "-"; Marker 1 "%1"].
  cbn [minEscape render Nat.eqb]. by rewrite append_empty_r.
Qed.

(** Line 149, second [arg], for a machine name without a percent sign: the
    suffix takes the place of [%2]. *)
Lemma arg_suffix name a :
  noPercent name = true → arg (name +:+ "%2.local.") a = name +:+ a +:+ ".local.".
Proof.
  intros Hn. unfold arg. rewrite pieces_noPercent by done.
  change (pieces "%2.local.") with (Marker 2 "%2" :: plain ".local.").
  rewrite minEscape_plain.
  change (minEscape (Marker 2 "%2" :: plain ".local.")) with (Some 2%nat).
  cbv iota beta. rewrite render_plain. cbn [render Nat.eqb].
  pose proof (render_plain 2 a ".local." []) as Hr.
  rewrite app_nil_r in Hr. rewrite Hr. cbn [render]. by rewrite append_empty_r.
Qed.

Lemma retryName_plain n :
  noPercent localHostName = true → retryName n = suffixed n.
Proof.
  intros Hn. unfold retryName, suffixed.
  by rewrite arg_machine_name, arg_dash, arg_suffix.
Qed.

(** *** Writing through a socket *)

Lemma frameSockets_written sock st : frameSockets st (written sock st).
Proof.
  unfold written. destruct (isBound (socketOf sock st)); [done|]. by destruct sock.
Qed.

Lemma written_bound sock st :
  isBound (socketOf sock st) = true → written sock st = st.
Proof. unfold written. by intros ->. Qed.

Lemma socketOf_written sock st :
  socketOf sock (written sock st) =
    if isBound (socketOf sock st) then socketOf sock st
    else bound (socketOf sock st).
Proof.
  unfold written. destruct (isBound (socketOf sock st)) eqn:Hb; [done|].
  by destruct sock.
Qed.

Lemma socketOf_written_ne sock sock' st :
  sock ≠ sock' → socketOf sock' (written sock st) = socketOf sock' st.
Proof.
  intros Hne. unfold written. destruct (isBound (socketOf sock st)); [done|].
  by destruct sock, sock'.
Qed.

Lemma isBound_written sock st : isBound (socketOf sock (written sock st)) = true.
Proof.
  rewrite socketOf_written. by destruct (isBound (socketOf sock st)) eqn:Hb.
Qed.

Lemma mHostname_written sock st : mHostname (written sock st) = mHostname st.
Proof. by destruct (frameSockets_written sock st) as (_ & _ & ? & _). Qed.

Lemma mHostnameSuffix_written sock st :
  mHostnameSuffix (written sock st) = mHostnameSuffix st.
Proof. by destruct (frameSockets_written sock st) as (_ & _ & _ & _ & ?). Qed.

Lemma mHostnameConfirmed_written sock st :
  mHostnameConfirmed (written sock st) = mHostnameConfirmed st.
Proof. by destruct (frameSockets_written sock st) as (_ & _ & _ & ? & _). Qed.

Lemma mHostnameTimer_written sock st :
  mHostnameTimer (written sock st) = mHostnameTimer st.
Proof. by destruct (frameSockets_written sock st) as (_ & ? & _). Qed.

Lemma mSocketTimer_written sock st :
  mSocketTimer (written sock st) = mSocketTimer st.
Proof. by destruct (frameSockets_written sock st) as (? & _). Qed.

Lemma sendMessage_spec message st :
  sendMessage message st =
    (written (protocol message) st,
     [WriteDatagram (protocol message) (toPacket message)
        (address message) (port message)]).
Proof.
  unfold sendMessage, andThen, when, writeDatagram, skip.
  by destruct (protocol message).
Qed.

Lemma checkHostname_spec p st :
  checkHostname p st = (written p st, [probeDatagram (mHostname st) p]).
Proof. unfold checkHostname. rewrite sendMessage_spec. by destruct p. Qed.

(** The server after the probes were written on both families. *)
Lemma retry_spec st :
  retry st =
    (probed
       (setHostname (retryName (mHostnameSuffix st))
          (setHostnameSuffix (mHostnameSuffix st + 1) st)),
     [probeDatagram (retryName (mHostnameSuffix st)) IPv4;
      probeDatagram (retryName (mHostnameSuffix st)) IPv6]).
Proof.
  unfold retry, andThen, modify, retryName, probed. cbn beta iota.
  rewrite !checkHostname_spec, mHostname_written. reflexivity.
Qed.

Lemma scanRecords_confirmed rs st :
  mHostnameConfirmed st = true → scanRecords rs st = (st, []).
Proof.
  intros Hc. induction rs as [|r rs IH]; [done|].
  cbn [scanRecords]. rewrite Hc. cbn [negb].
  by destruct (conflicts (mHostname st) r).
Qed.

Lemma scanRecords_none rs st :
  Forall (λ r, conflicts (mHostname st) r = false) rs →
  scanRecords rs st = (st, []).
Proof.
  induction 1 as [|r rs Hr _ IH]; [done|].
  cbn [scanRecords]. by rewrite Hr.
Qed.

Lemma scanRecords_first pre r post st :
  Forall (λ r, conflicts (mHostname st) r = false) pre →
  conflicts (mHostname st) r = true →
  mHostnameConfirmed st = false →
  scanRecords (pre ++ r :: post) st = retry st.
Proof.
  intros Hpre Hr Hc. induction Hpre as [|r0 pre Hr0 _ IH].
  - cbn [app scanRecords]. by rewrite Hr, Hc.
  - cbn [app scanRecords]. by rewrite Hr0.
Qed.

(** A message either leaves the server alone or triggers one retry. *)
Lemma onMessageReceived_cases message st :
  onMessageReceived message st = (st, []) ∨
  (mHostnameConfirmed st = false ∧ onMessageReceived message st = retry st).
Proof.
  unfold onMessageReceived, when.
  destruct (isResponse message); [|by left].
  destruct (mHostnameConfirmed st) eqn:Hc.
  { left. by apply scanRecords_confirmed. }
  induction (records message) as [|r rs IH]; [by left|].
  cbn [scanRecords]. rewrite Hc. cbn [negb].
  destruct (conflicts (mHostname st) r); [by right|done].
Qed.


(** ** Composing facts about actions *)

Lemma respects_skip R `{!Reflexive R} : respects R skip.
Proof. intros st. done. Qed.

Lemma respects_emit R `{!Reflexive R} e : respects R (emit e).
Proof. intros st. done. Qed.

Lemma respects_andThen R `{!Transitive R} a b :
  respects R a → respects R b → respects R (a >> b).
Proof.
  intros Ha Hb st. rewrite andThen_fst. by etrans; [apply Ha | apply Hb].
Qed.

Lemma respects_when R `{!Reflexive R} c a :
  respects R a → respects R (when c a).
Proof. intros Ha st. unfold when. destruct (c st); [apply Ha | done]. Qed.

Lemma respects_foreach R `{!PreOrder R} {X} (l : list X) body :
  (∀ x, respects R (body x)) → respects R (foreach l body).
Proof.
  intros Hb. induction l as [|x l IH]; cbn [foreach].
  - by apply respects_skip, _.
  - apply respects_andThen; [apply _ | apply Hb | apply IH].
Qed.

Lemma emits_skip P : emits P skip.
Proof. intros st. constructor. Qed.

Lemma emits_modify P f : emits P (modify f).
Proof. intros st. constructor. Qed.

Lemma emits_emit (P : Effect → Prop) e : P e → emits P (emit e).
Proof. intros He st. by repeat constructor. Qed.

Lemma emits_andThen P a b : emits P a → emits P b → emits P (a >> b).
Proof.
  intros Ha Hb st. rewrite andThen_snd. apply Forall_app. split; [apply Ha | apply Hb].
Qed.

Lemma emits_when P c a : emits P a → emits P (when c a).
Proof. intros Ha st. unfold when. destruct (c st); [apply Ha | constructor]. Qed.

Lemma emits_foreach P {X} (l : list X) body :
  (∀ x, emits P (body x)) → emits P (foreach l body).
Proof.
  intros Hb. induction l as [|x l IH]; cbn [foreach].
  - apply emits_skip.
  - by apply emits_andThen.
Qed.

#[local] Instance frameSockets_preorder : PreOrder frameSockets.
Proof.
  split.
  - by intros st.
  - intros st1 st2 st3 (?&?&?&?&?) (?&?&?&?&?).
    unfold frameSockets. by repeat split; etrans.
Qed.

Lemma frameSockets_setSocket sock s st : frameSockets st (setSocket sock s st).
Proof. by destruct sock. Qed.

Lemma socketOf_setSocket sock s st : socketOf sock (setSocket sock s st) = s.
Proof. by destruct sock. Qed.

Lemma socketOf_setSocket_ne sock sock' s st :
  sock ≠ sock' → socketOf sock' (setSocket sock s st) = socketOf sock' st.
Proof. by destruct sock, sock'. Qed.

(** *** Binding *)

Lemma bindReuse_frame env sock a : respects frameSockets (bindReuse env sock a).
Proof.
  intros st. unfold bindReuse.
  destruct (bind env sock a ReuseAddressHint (socketOf sock st)) as [s ok].
  apply frameSockets_setSocket.
Qed.

Lemma bindSocket_frame env sock a : respects frameSockets (bindSocket env sock a).
Proof.
  unfold bindSocket. destruct Q_OS_UNIX; [|apply bindReuse_frame].
  intros st.
  destruct (bind env sock a ShareAddress (socketOf sock st)) as [s [|]].
  - apply frameSockets_setSocket.
  - etrans; [apply (frameSockets_setSocket sock s)|].
    apply respects_andThen; [apply _ | | apply bindReuse_frame].
    apply respects_when; [apply _ | apply respects_emit, _].
Qed.

Lemma bindSocket_quiet env sock a : emits notConfirmation (bindSocket env sock a).
Proof.
  assert (emits notConfirmation (bindReuse env sock a)) as Hr.
  { intros st. unfold bindReuse.
    destruct (bind env sock a ReuseAddressHint (socketOf sock st)) as [s [|]];
      by repeat constructor. }
  unfold bindSocket. destruct Q_OS_UNIX; [|done].
  intros st.
  destruct (bind env sock a ShareAddress (socketOf sock st)) as [s [|]].
  - constructor.
  - apply emits_andThen; [|done].
    apply emits_when, emits_emit. done.
Qed.

Lemma bindSockets_frame env : respects frameSockets (bindSockets env).
Proof.
  apply respects_andThen; [apply _ | |];
    (apply respects_when; [apply _ | apply bindSocket_frame]).
Qed.

Lemma bindSockets_quiet env : emits notConfirmation (bindSockets env).
Proof. apply emits_andThen; apply emits_when, bindSocket_quiet. Qed.

(** *** Joining *)

Lemma joinMulticastGroup_frame env sock group interface :
  respects frameSockets (joinMulticastGroup env sock group interface).
Proof. intros st. apply frameSockets_setSocket. Qed.

Lemma joinMulticastGroup_quiet env sock group interface :
  emits notConfirmation (joinMulticastGroup env sock group interface).
Proof. intros st. by repeat constructor. Qed.

Lemma joinOn_frame env b4 b6 interface :
  respects frameSockets (joinOn env b4 b6 interface).
Proof.
  unfold joinOn. destruct (negb _); [|by apply respects_skip, _].
  destruct (scanAddresses _) as [a4 a6].
  apply respects_andThen; [apply _ | |];
    (apply respects_when; [apply _ | apply joinMulticastGroup_frame]).
Qed.

Lemma joinOn_quiet env b4 b6 interface :
  emits notConfirmation (joinOn env b4 b6 interface).
Proof.
  unfold joinOn. destruct (negb _); [|apply emits_skip].
  destruct (scanAddresses _) as [a4 a6].
  apply emits_andThen; apply emits_when, joinMulticastGroup_quiet.
Qed.

Lemma joinOn_state env b4 b6 interface sock st :
  state (socketOf sock (joinOn env b4 b6 interface st).1) = state (socketOf sock st).
Proof.
  unfold joinOn. destruct (negb _); [|done].
  destruct (scanAddresses _) as [a4 a6].
  rewrite andThen_fst. unfold when, joinMulticastGroup, skip.
  destruct (b4 && a6), (b6 && a6), sock; cbn;
    repeat (destruct (isBound _ && _); cbn); done.
Qed.

Lemma foreach_joinOn_state env b4 b6 l sock st :
  state (socketOf sock (foreach l (joinOn env b4 b6) st).1) = state (socketOf sock st).
Proof.
  revert st. induction l as [|i l IH]; intros st; [done|].
  cbn [foreach]. rewrite andThen_fst, IH. apply joinOn_state.
Qed.


(** *** The maintenance run and the prober *)

Lemma beginChecking_spec st :
  beginChecking st =
    if mHostnameConfirmed st then (st, [])
    else (probed
            (setHostnameSuffix 1 (setHostname (localHostName +:+ ".local.") st)),
          [probeDatagram (localHostName +:+ ".local.") IPv4;
           probeDatagram (localHostName +:+ ".local.") IPv6]).
Proof.
  unfold beginChecking, when. destruct (mHostnameConfirmed st); [done|].
  cbn [negb]. unfold andThen, modify.
  rewrite !checkHostname_spec. by rewrite mHostname_written.
Qed.

Lemma frameSockets_probed st : frameSockets st (probed st).
Proof. unfold probed. etrans; apply frameSockets_written. Qed.

Lemma mHostname_probed st : mHostname (probed st) = mHostname st.
Proof. by destruct (frameSockets_probed st) as (_ & _ & ? & _). Qed.

Lemma mHostnameSuffix_probed st : mHostnameSuffix (probed st) = mHostnameSuffix st.
Proof. by destruct (frameSockets_probed st) as (_ & _ & _ & _ & ?). Qed.

Lemma mHostnameConfirmed_probed st :
  mHostnameConfirmed (probed st) = mHostnameConfirmed st.
Proof. by destruct (frameSockets_probed st) as (_ & _ & _ & ? & _). Qed.

Lemma mHostnameTimer_probed st : mHostnameTimer (probed st) = mHostnameTimer st.
Proof. by destruct (frameSockets_probed st) as (_ & ? & _). Qed.

Lemma mSocketTimer_probed st : mSocketTimer (probed st) = mSocketTimer st.
Proof. by destruct (frameSockets_probed st) as (? & _). Qed.

Ltac probed_fields :=
  rewrite ?mHostname_probed, ?mHostnameSuffix_probed,
    ?mHostnameConfirmed_probed, ?mHostnameTimer_probed, ?mSocketTimer_probed.

Lemma isBound_probed sock st : isBound (socketOf sock (probed st)) = true.
Proof.
  unfold probed. destruct sock.
  - rewrite (socketOf_written_ne IPv6 IPv4) by done. apply isBound_written.
  - apply isBound_written.
Qed.

Lemma memberships_probed sock st :
  memberships (socketOf sock (probed st)) = memberships (socketOf sock st).
Proof.
  unfold probed. destruct sock.
  - rewrite (socketOf_written_ne IPv6 IPv4), socketOf_written by done.
    by destruct (isBound _).
  - rewrite socketOf_written, (socketOf_written_ne IPv4 IPv6) by done.
    by destruct (isBound _).
Qed.

Lemma probed_bound st :
  isBound (mIpv4Socket st) = true → isBound (mIpv6Socket st) = true →
  probed st = st.
Proof.
  intros H4 H6. unfold probed.
  rewrite (written_bound IPv4) by done. by rewrite (written_bound IPv6).
Qed.

Lemma beginChecking_quiet : emits notConfirmation beginChecking.
Proof.
  intros st. rewrite beginChecking_spec.
  destruct (mHostnameConfirmed st); by repeat constructor.
Qed.

Lemma joinGroups_fst env st :
  (joinGroups env st).1 =
    if isBound (mIpv4Socket st) || isBound (mIpv6Socket st)
    then (beginChecking
            (foreach (allInterfaces env)
               (joinOn env (isBound (mIpv4Socket st)) (isBound (mIpv6Socket st)))
               st).1).1
    else st.
Proof.
  unfold joinGroups, when.
  destruct (isBound (mIpv4Socket st) || isBound (mIpv6Socket st)); [|done].
  apply andThen_fst.
Qed.

Lemma joinGroups_quiet env : emits notConfirmation (joinGroups env).
Proof.
  intros st. unfold joinGroups.
  apply emits_when, emits_andThen; [|apply beginChecking_quiet].
  apply emits_foreach. intros i. apply joinOn_quiet.
Qed.

Lemma onSocketTimeout_quiet env : emits notConfirmation (onSocketTimeout env).
Proof.
  unfold onSocketTimeout.
  apply emits_andThen; [apply emits_andThen|];
    [apply bindSockets_quiet | apply joinGroups_quiet | apply emits_modify].
Qed.

(** What a maintenance run does to the prober.  Either it restarts the
    probing (the hostname is unconfirmed and a socket is bound), or it
    leaves candidate and counter alone. *)
Lemma onSocketTimeout_prober env st :
  let st' := (onSocketTimeout env st).1 in
  mHostnameTimer st' = mHostnameTimer st ∧
  mHostnameConfirmed st' = mHostnameConfirmed st ∧
  ((mHostnameConfirmed st = false ∧
    isBound (mIpv4Socket st') || isBound (mIpv6Socket st') = true ∧
    mHostname st' = localHostName +:+ ".local." ∧ mHostnameSuffix st' = 1)
   ∨
   ((mHostnameConfirmed st = true ∨
     isBound (mIpv4Socket st') || isBound (mIpv6Socket st') = false) ∧
    mHostname st' = mHostname st ∧ mHostnameSuffix st' = mHostnameSuffix st)).
Proof.
  cbn zeta. unfold onSocketTimeout. rewrite !andThen_fst.
  pose proof (bindSockets_frame env st) as (_ & Ht & Hh & Hc & Hs).
  set (st1 := (bindSockets env st).1) in *.
  rewrite joinGroups_fst.
  pose proof (respects_foreach frameSockets (allInterfaces env)
                (joinOn env (isBound (mIpv4Socket st1)) (isBound (mIpv6Socket st1)))
                (joinOn_frame env _ _) st1) as (_ & Ht2 & Hh2 & Hc2 & Hs2).
  pose proof (foreach_joinOn_state env (isBound (mIpv4Socket st1))
                (isBound (mIpv6Socket st1)) (allInterfaces env) IPv4 st1) as Hb4.
  pose proof (foreach_joinOn_state env (isBound (mIpv4Socket st1))
                (isBound (mIpv6Socket st1)) (allInterfaces env) IPv6 st1) as Hb6.
  set (st2 := (foreach _ _ st1).1) in *.
  cbn [socketOf] in Hb4, Hb6.
  destruct (isBound (mIpv4Socket st1) || isBound (mIpv6Socket st1)) eqn:Hb.
  - rewrite beginChecking_spec.
    destruct (mHostnameConfirmed st2) eqn:Hc3; cbn.
    + split; [congruence|]. split; [congruence|].
      right. split; [left; congruence|]. split; congruence.
    + probed_fields. cbn.
      split; [congruence|]. split; [congruence|].
      left. split; [congruence|]. split; [|done].
      by rewrite (isBound_probed IPv4 _ : isBound (mIpv4Socket _) = _).
  - cbn. split; [done|]. split; [done|]. right. by split; [right|].
Qed.

Lemma onHostnameTimeout_spec st :
  onHostnameTimeout st =
    (setHostnameConfirmed true st, [EmitHostnameConfirmed (mHostname st)]).
Proof. done. Qed.


(** *** One event *)

Lemma scanRecords_exists rs st :
  existsb (conflicts (mHostname st)) rs = true →
  mHostnameConfirmed st = false →
  scanRecords rs st = retry st.
Proof.
  intros He Hc. induction rs as [|r rs IH]; [done|].
  cbn [scanRecords existsb] in *. rewrite Hc. cbn [negb].
  destruct (conflicts (mHostname st) r); [done|]. by apply IH.
Qed.

Lemma scanRecords_not_exists rs st :
  existsb (conflicts (mHostname st)) rs = false →
  scanRecords rs st = (st, []).
Proof.
  intros He. apply scanRecords_none.
  induction rs as [|r rs IH]; [constructor|].
  cbn [existsb] in He. apply orb_false_iff in He as [? ?].
  constructor; [done|by apply IH].
Qed.

(** Reading a datagram: nothing changes, or one retry happens; the retry
    happens exactly for a conflicting response to an unconfirmed name. *)
Lemma onReadyRead_cases sock packet a p st :
  let r := onReadyRead packet a p st in
  Forall notConfirmation r.2 ∧
  if isConflict st (ReadyRead sock packet a p) && negb (mHostnameConfirmed st)
  then r.1 = (retry st).1
  else r.1 = st.
Proof.
  cbn zeta. unfold onReadyRead, isConflict.
  destruct (fromPacket packet) as [message|]; [|by split; [constructor|]].
  rewrite andThen_fst, andThen_snd. cbn [emit fst snd].
  unfold onMessageReceived, when. cbn [records annotate setPort setProtocol setAddress isResponse].
  destruct (isResponse message); cbn [andb]; [|by split; [repeat constructor|]].
  destruct (mHostnameConfirmed st) eqn:Hc; cbn [negb].
  { rewrite andb_false_r, scanRecords_confirmed by done.
    by split; [repeat constructor|]. }
  rewrite andb_true_r.
  destruct (existsb (conflicts (mHostname st)) (records message)) eqn:He.
  - rewrite scanRecords_exists by done. split; [|done].
    rewrite retry_spec. by repeat constructor.
  - rewrite scanRecords_not_exists by done. by split; [repeat constructor|].
Qed.

Lemma retry_fst st :
  (retry st).1 =
    probed
      (setHostname (retryName (mHostnameSuffix st))
         (setHostnameSuffix (mHostnameSuffix st + 1) st)).
Proof. by rewrite retry_spec. Qed.

Lemma step_Some st ev st' out :
  step st ev = Some (st', out) →
  enabled st ev = true ∧ st' = (handle ev st).1 ∧ out = (handle ev st).2.
Proof.
  unfold step. destruct (enabled st ev); [|done].
  intros [= H]. by rewrite H.
Qed.

(** The three kinds of event, as the prober sees them. *)
Lemma step_tick st env st' out :
  step st (SocketTimeout env) = Some (st', out) →
  Forall notConfirmation out ∧
  mHostnameTimer st' = mHostnameTimer st ∧
  mHostnameConfirmed st' = mHostnameConfirmed st ∧
  ((mHostnameConfirmed st = false ∧
    isBound (mIpv4Socket st') || isBound (mIpv6Socket st') = true ∧
    mHostname st' = localHostName +:+ ".local." ∧ mHostnameSuffix st' = 1)
   ∨
   ((mHostnameConfirmed st = true ∨
     isBound (mIpv4Socket st') || isBound (mIpv6Socket st') = false) ∧
    mHostname st' = mHostname st ∧ mHostnameSuffix st' = mHostnameSuffix st)).
Proof.
  intros (_ & -> & ->)%step_Some.
  cbn [handle]. rewrite andThen_fst, andThen_snd. cbn [modify fst snd app].
  split; [apply onSocketTimeout_quiet|].
  apply (onSocketTimeout_prober env
           (setSocketTimer (expire (mSocketTimer st)) st)).
Qed.

Lemma step_confirm st st' out :
  step st HostnameTimeout = Some (st', out) →
  isActive (mHostnameTimer st) = true ∧
  out = [EmitHostnameConfirmed (mHostname st)] ∧
  st' = setHostnameConfirmed true
          (setHostnameTimer (expire (mHostnameTimer st)) st).
Proof.
  by intros (? & -> & ->)%step_Some.
Qed.

Lemma step_read st sock packet a p st' out :
  step st (ReadyRead sock packet a p) = Some (st', out) →
  isBound (socketOf sock st) = true ∧
  Forall notConfirmation out ∧
  if isConflict st (ReadyRead sock packet a p) && negb (mHostnameConfirmed st)
  then st' = (retry st).1
  else st' = st.
Proof.
  intros (? & -> & ->)%step_Some.
  split; [done|]. apply (onReadyRead_cases sock).
Qed.

Lemma confirmations_app out1 out2 :
  confirmations (out1 ++ out2) = (confirmations out1 + confirmations out2)%nat.
Proof. unfold confirmations. by rewrite filter_app, length_app. Qed.

Lemma confirmations_quiet out :
  Forall notConfirmation out → confirmations out = 0%nat.
Proof.
  unfold confirmations. induction 1 as [|e out He _ IH]; [done|].
  rewrite filter_cons. unfold notConfirmation in He.
  destruct (decide (isConfirmation e = true)); [congruence|done].
Qed.

Lemma quiet_not_announced out h :
  Forall notConfirmation out → EmitHostnameConfirmed h ∉ out.
Proof.
  intros Hq Hin. rewrite Forall_forall in Hq. by specialize (Hq _ Hin).
Qed.


(** *** Runs of the event loop *)

Lemma run_cons st ev evs st' out :
  run st (ev :: evs) = Some (st', out) →
  ∃ st1 out1 out2,
    step st ev = Some (st1, out1) ∧ run st1 evs = Some (st', out2) ∧
    out = out1 ++ out2.
Proof.
  cbn [run]. destruct (step st ev) as [[st1 out1]|] eqn:Hs; [|done].
  destruct (run st1 evs) as [[st2 out2]|] eqn:Hr; [|done].
  intros [= <- <-]. by exists st1, out1, out2.
Qed.

(** The constructor leaves a single-shot hostname timer that is not
    running, and nothing confirmed. *)
Lemma construct_oneShot env junk : oneShot (construct env junk).1.
Proof.
  unfold construct. rewrite !andThen_fst. cbn [modify fst].
  destruct (onSocketTimeout_prober env
    (setHostnameTimer (setSingleShot true (mHostnameTimer
       (setSocketTimer (setSingleShot true (mSocketTimer (members junk)))
          (members junk))))
       (setSocketTimer (setSingleShot true (mSocketTimer (members junk)))
          (members junk)))) as (Ht & Hc & _).
  split; [by rewrite Ht|]. by rewrite Hc.
Qed.

Lemma step_oneShot st ev st' out :
  oneShot st → step st ev = Some (st', out) → oneShot st'.
Proof.
  intros [Hs Ha] Hstep. destruct ev as [env| |sock packet a p].
  - apply step_tick in Hstep as (_ & Ht & Hc & _).
    split; [by rewrite Ht|]. rewrite Ht, Hc. done.
  - apply step_confirm in Hstep as (_ & _ & ->).
    split; [done|]. intros _. cbn. by rewrite Hs.
  - apply step_read in Hstep as (_ & _ & Hst).
    destruct (_ && _) eqn:Hcase; subst st'; [|done].
    apply andb_true_iff in Hcase as [_ Hc%negb_true_iff].
    rewrite retry_fst. unfold oneShot. probed_fields. cbn. split; [done|congruence].
Qed.

(** Once the hostname is confirmed, no event changes it or announces it
    again. *)
Lemma step_confirmed st ev st' out :
  oneShot st → mHostnameConfirmed st = true →
  step st ev = Some (st', out) →
  mHostnameConfirmed st' = true ∧ mHostname st' = mHostname st ∧
  mHostnameSuffix st' = mHostnameSuffix st ∧ Forall notConfirmation out.
Proof.
  intros [Hs Ha] Hc Hstep. destruct ev as [env| |sock packet a p].
  - apply step_tick in Hstep as (Hq & _ & Hc' & [(? & _)|(_ & ? & ?)]);
      [congruence|]. rewrite Hc'. done.
  - apply step_confirm in Hstep as (Hact & _ & _). rewrite Ha in Hact; done.
  - apply step_read in Hstep as (_ & Hq & Hst).
    rewrite Hc, andb_false_r in Hst. by subst st'.
Qed.

Lemma run_confirmed st evs st' out :
  oneShot st → mHostnameConfirmed st = true →
  run st evs = Some (st', out) →
  mHostnameConfirmed st' = true ∧ mHostname st' = mHostname st ∧
  mHostnameSuffix st' = mHostnameSuffix st ∧ Forall notConfirmation out.
Proof.
  revert st out. induction evs as [|ev evs IH]; intros st out Hone Hc Hrun.
  - cbn in Hrun. injection Hrun as <- <-. by repeat split.
  - apply run_cons in Hrun as (st1 & out1 & out2 & Hstep & Hrun & ->).
    pose proof (step_oneShot _ _ _ _ Hone Hstep) as Hone1.
    destruct (step_confirmed _ _ _ _ Hone Hc Hstep) as (Hc1 & Hh1 & Hs1 & Hq1).
    destruct (IH _ _ Hone1 Hc1 Hrun) as (Hc2 & Hh2 & Hs2 & Hq2).
    repeat split; [done|congruence|congruence|]. by apply Forall_app.
Qed.

Lemma run_oneShot st evs st' out :
  oneShot st → run st evs = Some (st', out) → oneShot st'.
Proof.
  revert st out. induction evs as [|ev evs IH]; intros st out Hone Hrun.
  - cbn in Hrun. by injection Hrun as <- <-.
  - apply run_cons in Hrun as (st1 & out1 & out2 & Hstep & Hrun & ->).
    eapply IH; [|done]. by eapply step_oneShot.
Qed.

(** A run announces at most one name, and a name it announces is the
    confirmed hostname at its end. *)
Lemma run_announces st evs st' out :
  oneShot st → run st evs = Some (st', out) →
  (confirmations out ≤ 1)%nat ∧
  (mHostnameConfirmed st' = false → confirmations out = 0%nat) ∧
  (∀ h, EmitHostnameConfirmed h ∈ out →
     mHostnameConfirmed st' = true ∧ mHostname st' = h).
Proof.
  revert st out. induction evs as [|ev evs IH]; intros st out Hone Hrun.
  - cbn in Hrun. injection Hrun as <- <-.
    split; [cbn; lia|]. split; [done|]. by intros h ?%elem_of_nil.
  - apply run_cons in Hrun as (st1 & out1 & out2 & Hstep & Hrun & ->).
    pose proof (step_oneShot _ _ _ _ Hone Hstep) as Hone1.
    destruct (IH _ _ Hone1 Hrun) as (Hle & Hzero & Hname).
    rewrite confirmations_app.
    assert (Forall notConfirmation out1 ∨
            (mHostnameConfirmed st1 = true ∧
             out1 = [EmitHostnameConfirmed (mHostname st1)])) as [Hq|[Hc1 ->]].
    { destruct ev as [env| |sock packet a p].
      - left. by apply step_tick in Hstep as (? & _).
      - right. by apply step_confirm in Hstep as (_ & -> & ->).
      - left. by apply step_read in Hstep as (_ & ? & _). }
    + rewrite (confirmations_quiet _ Hq). cbn [Nat.add].
      split; [done|]. split; [done|].
      intros h [Hin|Hin]%elem_of_app; [|by apply Hname].
      by apply quiet_not_announced in Hin.
    + destruct (run_confirmed _ _ _ _ Hone1 Hc1 Hrun) as (Hc2 & Hh2 & _ & Hq2).
      rewrite (confirmations_quiet _ Hq2).
      split; [done|]. split; [congruence|].
      intros h [Hin|Hin]%elem_of_app.
      * apply list_elem_of_singleton in Hin as [= ->]. done.
      * by apply quiet_not_announced in Hin.
Qed.


(** ** The hostname prober *)

(** X8. What would hold with the hostname timer running.  From any state in
    which that timer is single-shot and does not run after confirmation
    (the constructor leaves such a state, [construct_oneShot]), every run
    of the event loop emits [hostnameConfirmed] at most once; a name it
    has emitted is the hostname from then on; and once the hostname is
    confirmed, later events neither change it, nor unconfirm it, nor emit
    the signal again. *)
Lemma hostnameConfirmed_once st evs1 st1 out1 evs2 st2 out2 :
  oneShot st →
  run st evs1 = Some (st1, out1) →
  run st1 evs2 = Some (st2, out2) →
  (confirmations (out1 ++ out2) ≤ 1)%nat ∧
  (∀ h, EmitHostnameConfirmed h ∈ out1 →
     mHostname st1 = h ∧ mHostname st2 = h) ∧
  (mHostnameConfirmed st1 = true →
     mHostnameConfirmed st2 = true ∧ mHostname st2 = mHostname st1 ∧
     confirmations out2 = 0%nat).
Proof.
  intros Hone Hrun1 Hrun2.
  pose proof (run_oneShot _ _ _ _ Hone Hrun1) as Hone1.
  destruct (run_announces _ _ _ _ Hone Hrun1) as (Hle1 & Hzero1 & Hname1).
  destruct (run_announces _ _ _ _ Hone1 Hrun2) as (Hle2 & _ & _).
  assert (mHostnameConfirmed st1 = true →
          mHostnameConfirmed st2 = true ∧ mHostname st2 = mHostname st1 ∧
          confirmations out2 = 0%nat) as Hafter.
  { intros Hc1.
    destruct (run_confirmed _ _ _ _ Hone1 Hc1 Hrun2) as (? & ? & _ & Hq).
    by rewrite (confirmations_quiet _ Hq). }
  split; [|split; [|done]].
  - rewrite confirmations_app.
    destruct (mHostnameConfirmed st1) eqn:Hc1.
    + destruct Hafter as (_ & _ & ->); [done|]. lia.
    + rewrite Hzero1 by done. done.
  - intros h Hin. destruct (Hname1 h Hin) as [Hc1 Hh1].
    destruct (Hafter Hc1) as (_ & Hh2 & _). split; congruence.
Qed.

Lemma step_suffix st ev st1 out1 :
  step st ev = Some (st1, out1) →
  mHostnameConfirmed st = true ∨ isTick ev = false →
  mHostnameSuffix st1 =
    mHostnameSuffix st
    + Z.of_nat (if isConflict st ev && negb (mHostnameConfirmed st) then 1 else 0) ∧
  (mHostnameConfirmed st = true → mHostnameConfirmed st1 = true).
Proof.
  intros Hstep Hor. destruct ev as [env| |sock packet a p].
  - destruct Hor as [Hc|?]; [|done].
    apply step_tick in Hstep as (_ & _ & Hc' & [(? & _)|(_ & _ & ->)]);
      [congruence|].
    cbn [isConflict andb]. split; [lia|congruence].
  - apply step_confirm in Hstep as (_ & _ & ->). cbn. split; [lia|done].
  - apply step_read in Hstep as (_ & _ & Hst).
    destruct (_ && _) eqn:Hcase; subst st1.
    + rewrite retry_fst. probed_fields. cbn.
      apply andb_true_iff in Hcase as [_ Hc%negb_true_iff].
      split; [lia|congruence].
    + split; [lia|done].
Qed.

(** C3, as amended.  Over every run of the event loop that holds no
    maintenance tick, and over every run at all once the hostname is
    confirmed, the suffix counter never decreases: it grows by exactly one
    for each conflicting response handled while the hostname is
    unconfirmed. *)
Theorem suffix_counter_monotone st evs st' out :
  run st evs = Some (st', out) →
  mHostnameConfirmed st = true ∨ Forall (λ ev, isTick ev = false) evs →
  mHostnameSuffix st ≤ mHostnameSuffix st' ∧
  mHostnameSuffix st' = mHostnameSuffix st + Z.of_nat (conflictsSeen st evs).
Proof.
  intros Hrun Hor.
  enough (mHostnameSuffix st' =
          mHostnameSuffix st + Z.of_nat (conflictsSeen st evs)) by lia.
  revert st out Hrun Hor.
  induction evs as [|ev evs IH]; intros st out Hrun Hor.
  - cbn in Hrun. injection Hrun as <- <-. cbn. lia.
  - apply run_cons in Hrun as (st1 & out1 & out2 & Hstep & Hrun & ->).
    cbn [conflictsSeen]. rewrite Hstep.
    destruct (step_suffix st ev st1 out1 Hstep) as [Hs Hc].
    { destruct Hor as [?|Hall]; [by left|right].
      by apply Forall_cons_1 in Hall as [? _]. }
    rewrite (IH st1 out2 Hrun), Hs.
    + lia.
    + destruct Hor as [?|Hall]; [left; by apply Hc|right].
      by apply Forall_cons_1 in Hall as [_ ?].
Qed.

Lemma candidate_first : candidate 1 = localHostName +:+ ".local.".
Proof. done. Qed.

Lemma candidate_next n : 1 ≤ n → candidate (n + 1) = suffixed n.
Proof.
  intros Hn. unfold candidate.
  destruct (n + 1 =? 1) eqn:He; [lia|]. f_equal. lia.
Qed.

Lemma step_named st ev st' out :
  noPercent localHostName = true →
  named st ∨ idle st → step st ev = Some (st', out) →
  (named st' ∨ idle st') ∧ announcesCandidates out.
Proof.
  intros Hname Hinv Hstep. destruct ev as [env| |sock packet a p].
  - apply step_tick in Hstep
      as (Hq & Ht & Hc & [(_ & _ & Hh & Hs)|(Hwhy & Hh & Hs)]).
    + split; [left|by intros h ?%quiet_not_announced].
      split; [lia|]. by rewrite Hh, Hs.
    + split; [|by intros h ?%quiet_not_announced].
      destruct Hinv as [[Hn1 Hn2]|(Hi1 & _ & _ & Hi4 & Hi5)].
      * left. split; [lia|]. by rewrite Hh, Hs.
      * right. destruct Hwhy as [?|Hb]; [congruence|].
        apply orb_false_iff in Hb as [? ?].
        repeat split; congruence.
  - apply step_confirm in Hstep as (Hact & -> & ->).
    destruct Hinv as [[Hn1 Hn2]|(_ & _ & _ & _ & Hi5)]; [|congruence].
    split; [by left|].
    intros h [= ->]%list_elem_of_singleton. by exists (mHostnameSuffix st).
  - apply step_read in Hstep as (Hb & Hq & Hst).
    split; [|by intros h ?%quiet_not_announced].
    destruct Hinv as [[Hn1 Hn2]|(_ & Hi2 & Hi3 & _)];
      [|destruct sock; cbn in Hb; congruence].
    destruct (_ && _); subst st'; [|by left].
    left. rewrite retry_fst. unfold named. probed_fields. cbn.
    split; [lia|]. by rewrite candidate_next, retryName_plain.
Qed.

(** The constructor leaves the server either probing under the bare
    name, or with nothing bound and no candidate yet. *)
Lemma construct_named env junk :
  named (construct env junk).1 ∨ idle (construct env junk).1.
Proof.
  unfold construct. rewrite !andThen_fst. cbn [modify fst].
  match goal with |- named (onSocketTimeout env ?s).1 ∨ _ =>
    destruct (onSocketTimeout_prober env s)
      as (Ht & Hc & [(_ & _ & Hh & Hs)|([?|Hb] & Hh & Hs)]) end.
  - left. split; [lia|]. by rewrite Hh, Hs.
  - done.
  - right. apply orb_false_iff in Hb as [? ?].
    repeat split; [by rewrite Hh|done|done|by rewrite Hc|by rewrite Ht].
Qed.

(** C5, as amended.  For a machine name without a percent sign: at every
    instant either nothing has been bound yet (the candidate is still
    empty), or the candidate is [base.local.] while the counter is 1 and
    [base-(counter-1).local.] once the counter exceeds 1: the suffix written
    in the name is the value the counter held before its last increment.  A
    name announced by [hostnameConfirmed] has this form. *)
Theorem candidate_follows_counter st evs st' out :
  noPercent localHostName = true →
  named st ∨ idle st →
  run st evs = Some (st', out) →
  (named st' ∨ idle st') ∧ announcesCandidates out.
Proof.
  intros Hname. revert st out.
  induction evs as [|ev evs IH]; intros st out Hinv Hrun.
  - cbn in Hrun. injection Hrun as <- <-.
    split; [done|]. by intros h ?%elem_of_nil.
  - apply run_cons in Hrun as (st1 & out1 & out2 & Hstep & Hrun & ->).
    destruct (step_named _ _ _ _ Hname Hinv Hstep) as [Hinv1 Hann1].
    destruct (IH _ _ Hinv1 Hrun) as [Hinv2 Hann2].
    split; [done|].
    intros h [?|?]%elem_of_app; [by apply Hann1|by apply Hann2].
Qed.

Lemma hostname_timer_never_runs env junk evs st out :
  run (construct env junk).1 evs = Some (st, out) →
  isActive (mHostnameTimer st) = false ∧ mHostnameConfirmed st = false ∧
  confirmations out = 0%nat.
Proof.
  assert (isActive (mHostnameTimer (construct env junk).1) = false ∧
          mHostnameConfirmed (construct env junk).1 = false) as Hinit.
  { unfold construct. rewrite !andThen_fst. cbn [modify fst].
    match goal with |- context [onSocketTimeout env ?s] =>
      destruct (onSocketTimeout_prober env s) as (-> & -> & _) end.
    done. }
  revert Hinit. generalize (construct env junk).1. intros st0. revert st0 out.
  induction evs as [|ev evs IH]; intros st0 out [Ha Hc] Hrun.
  - cbn in Hrun. by injection Hrun as <- <-.
  - apply run_cons in Hrun as (st1 & out1 & out2 & Hstep & Hrun & ->).
    assert ((isActive (mHostnameTimer st1) = false ∧
             mHostnameConfirmed st1 = false) ∧ Forall notConfirmation out1)
      as [Hinv1 Hq1].
    { destruct ev as [env'| |sock packet a p].
      - apply step_tick in Hstep as (? & -> & -> & _). done.
      - apply step_confirm in Hstep as (? & _). congruence.
      - apply step_read in Hstep as (_ & ? & Hst).
        destruct (_ && _); subst st1; [|done].
          rewrite retry_fst. by probed_fields. }
    destruct (IH _ _ Hinv1 Hrun) as (? & ? & Hz).
    by rewrite confirmations_app, (confirmations_quiet _ Hq1), Hz.
Qed.

Lemma construct_quiet env junk : Forall notConfirmation (construct env junk).2.
Proof.
  unfold construct.
  apply emits_andThen; [apply emits_andThen; apply emits_modify|].
  apply onSocketTimeout_quiet.
Qed.

(** C4. The code against the claim: from the constructor on, whatever
    events the loop delivers, [hostnameConfirmed] is not emitted even once
    and the hostname stays unconfirmed, because nothing starts the
    hostname timer whose timeout would confirm it. *)
Theorem hostnameConfirmed_never_emitted env junk evs st out :
  run (construct env junk).1 evs = Some (st, out) →
  confirmations ((construct env junk).2 ++ out) = 0%nat ∧
  mHostnameConfirmed st = false.
Proof.
  intros Hrun.
  destruct (hostname_timer_never_runs env junk evs st out Hrun) as (_ & Hc & Hz).
  split; [|done].
  by rewrite confirmations_app, (confirmations_quiet _ (construct_quiet env junk)), Hz.
Qed.

(** ** The message router *)

(** C6, as amended.  A datagram that decodes is passed on as the decoded
    message with its address set to the sender's address, its port to the
    sender's port and its family to the family of the sender's address:
    IPv4 for an IPv4 address, IPv6 for every other address.  This is the
    family of the socket the datagram was read from whenever the sender's
    address is of that socket's family.  The signal carries this message,
    and so does the call of [onMessageReceived] behind it. *)
Theorem onReadyRead_annotates st sock packet a p message :
  fromPacket packet = Some message →
  ∃ m,
    (address m = a ∧ port m = p ∧
     protocol m = (if bool_decide (addrProtocol a = IPv4Protocol)
                   then IPv4 else IPv6) ∧
     (addrProtocol a = familyOf sock → protocol m = sock)) ∧
    (isResponse m = isResponse message ∧ queries m = queries message ∧
     records m = records message) ∧
    handle (ReadyRead sock packet a p) st =
      (emit (EmitMessageReceived m) >> onMessageReceived m) st.
Proof.
  intros Hdec. exists (annotate a p message).
  split; [|split; [done|]].
  - repeat split. intros Hfam. cbn. rewrite Hfam. by destruct sock.
  - cbn [handle]. unfold onReadyRead. by rewrite Hdec.
Qed.

Lemma conflicts_false hostname r :
  (recType r ≠ A ∧ recType r ≠ AAAA) ∨ recName r ≠ hostname ∨ recTtl r = 0%N →
  conflicts hostname r = false.
Proof.
  unfold conflicts. intros [[? ?]|[?|?]].
  - by rewrite !bool_decide_eq_false_2.
  - apply andb_false_iff. left. apply andb_false_iff. right.
    by apply String.eqb_neq.
  - apply andb_false_iff. right. apply negb_false_iff. by apply N.eqb_eq.
Qed.

Lemma conflicts_true hostname r :
  conflicts hostname r = true ↔
  (recType r = A ∨ recType r = AAAA) ∧ recName r = hostname ∧ recTtl r ≠ 0%N.
Proof.
  unfold conflicts.
  rewrite !andb_true_iff, orb_true_iff, !bool_decide_eq_true,
    String.eqb_eq, negb_true_iff, N.eqb_neq.
  tauto.
Qed.

(** C7. A message that is not a response, or whose records each have a
    type other than A and AAAA, or a name other than the current
    candidate, or a TTL of zero, triggers no retry: the server is left
    exactly as it was (candidate, counter and confirmation flag included)
    and nothing is sent. *)
Theorem no_conflict_no_retry st message :
  isResponse message = false ∨
  Forall (λ r, (recType r ≠ A ∧ recType r ≠ AAAA) ∨
               recName r ≠ mHostname st ∨ recTtl r = 0%N)
    (records message) →
  onMessageReceived message st = (st, []).
Proof.
  intros [Hq|Hall]; unfold onMessageReceived, when.
  - by rewrite Hq.
  - destruct (isResponse message); [|done].
    apply scanRecords_none.
    eapply Forall_impl; [exact Hall|]. intros r. apply conflicts_false.
Qed.

(** C8. A datagram that does not decode is dropped: handling it emits
    nothing at all and leaves the server as it was. *)
Theorem decode_failure_dropped st sock packet a p :
  fromPacket packet = None →
  handle (ReadyRead sock packet a p) st = (st, []).
Proof. intros Hdec. cbn [handle]. unfold onReadyRead. by rewrite Hdec. Qed.

(** C9. In a response received while the hostname is unconfirmed, the
    first record that conflicts with the candidate triggers the retry and
    ends the scan: whatever records follow it, the counter is incremented
    once and one probe per family is sent for the new candidate. *)
Theorem first_match_only st message pre r post :
  isResponse message = true →
  records message = pre ++ r :: post →
  Forall (λ r, conflicts (mHostname st) r = false) pre →
  conflicts (mHostname st) r = true →
  mHostnameConfirmed st = false →
  onMessageReceived message st =
    (probed
       (setHostname (retryName (mHostnameSuffix st))
          (setHostnameSuffix (mHostnameSuffix st + 1) st)),
     [probeDatagram (retryName (mHostnameSuffix st)) IPv4;
      probeDatagram (retryName (mHostnameSuffix st)) IPv6]).
Proof.
  intros Hresp Hrecs Hpre Hr Hc.
  unfold onMessageReceived, when. rewrite Hresp, Hrecs.
  rewrite scanRecords_first by done. apply retry_spec.
Qed.


(** ** Membership maintenance *)

Lemma bindReuse_socketOf env sock a st :
  socketOf sock (bindReuse env sock a st).1 =
    if osBind env sock a ReuseAddressHint
    then bound (socketOf sock st) else socketOf sock st.
Proof.
  unfold bindReuse, bind.
  destruct (osBind env sock a ReuseAddressHint); cbn; apply socketOf_setSocket.
Qed.

Lemma bindSocket_socketOf env sock a st :
  socketOf sock (bindSocket env sock a st).1 =
    if bindResult env sock a then bound (socketOf sock st) else socketOf sock st.
Proof.
  unfold bindSocket, bindResult.
  destruct Q_OS_UNIX; [|apply bindReuse_socketOf].
  unfold bind. destruct (osBind env sock a ShareAddress); cbn [orb].
  - apply socketOf_setSocket.
  - rewrite andThen_fst.
    assert ((when (λ _, negb (osSetsockopt env sock))
               (emit (EmitError (SetsockoptError sock)))
               (setSocket sock (socketOf sock st) st)).1
            = setSocket sock (socketOf sock st) st) as ->.
    { unfold when. by destruct (negb _). }
    rewrite bindReuse_socketOf. by rewrite socketOf_setSocket.
Qed.

Lemma bindSocket_other env sock sock' a st :
  sock ≠ sock' →
  socketOf sock' (bindSocket env sock a st).1 = socketOf sock' st.
Proof.
  intros Hne.
  assert (∀ st, socketOf sock' (bindReuse env sock a st).1 = socketOf sock' st)
    as Hr.
  { intros st0. unfold bindReuse.
    destruct (bind _ _ _ _ _) as [s ok]. by apply socketOf_setSocket_ne. }
  unfold bindSocket. destruct Q_OS_UNIX; [|apply Hr].
  destruct (bind env sock a ShareAddress (socketOf sock st)) as [s [|]].
  - by apply socketOf_setSocket_ne.
  - rewrite andThen_fst, Hr. unfold when.
    destruct (negb _); by apply socketOf_setSocket_ne.
Qed.

(** What [bindSockets] leaves in each socket. *)
Lemma bindSockets_socketOf env sock st :
  socketOf sock (bindSockets env st).1 =
    if isBound (socketOf sock st) then socketOf sock st
    else if bindResult env sock (anyAddress sock)
         then bound (socketOf sock st) else socketOf sock st.
Proof.
  unfold bindSockets. rewrite andThen_fst. unfold when at 1 2.
  destruct sock; cbn [socketOf anyAddress].
  - destruct (isBound (mIpv4Socket st)) eqn:Hb4; cbn [negb].
    + destruct (negb _); [|done].
      by apply (bindSocket_other env IPv6 IPv4).
    + transitivity (mIpv4Socket (bindSocket env IPv4 AnyIPv4 st).1).
      { destruct (negb _); [|done]. by apply (bindSocket_other env IPv6 IPv4). }
      apply (bindSocket_socketOf env IPv4).
  - assert (mIpv6Socket
              (if negb (isBound (mIpv4Socket st))
               then bindSocket env IPv4 AnyIPv4 st else skip st).1
            = mIpv6Socket st) as H6.
    { destruct (negb _); [|done]. by apply (bindSocket_other env IPv4 IPv6). }
    rewrite H6.
    destruct (isBound (mIpv6Socket st)); cbn [negb]; [done|].
    rewrite <- H6. apply (bindSocket_socketOf env IPv6).
Qed.



Lemma adds_skip bb : adds bb skip.
Proof.
  split; [done|]. exists (λ _, ∅). intros st sock _. cbn. set_solver.
Qed.

Lemma adds_andThen bb a b : adds bb a → adds bb b → adds bb (a >> b).
Proof.
  intros [Hsa [Ka Ha]] [Hsb [Kb Hb]]. split.
  - intros st sock. by rewrite andThen_fst, Hsb, Hsa.
  - exists (λ sock, Ka sock ∪ Kb sock). intros st sock Hbb.
    rewrite andThen_fst, Hb, Ha by (try done; intros s; unfold isBound; by rewrite Hsa; apply Hbb).
    set_solver.
Qed.

Lemma adds_when bb (c : bool) a : adds bb a → adds bb (when (λ _, c) a).
Proof. intros Ha. unfold when. destruct c; [done|apply adds_skip]. Qed.

Lemma adds_foreach bb {X} (l : list X) body :
  (∀ x, adds bb (body x)) → adds bb (foreach l body).
Proof.
  intros Hb. induction l as [|x l IH]; cbn [foreach].
  - apply adds_skip.
  - by apply adds_andThen.
Qed.

Lemma adds_joinMulticastGroup bb env sock group interface :
  adds bb (joinMulticastGroup env sock group interface).
Proof.
  split.
  - intros st sock'. unfold joinMulticastGroup. cbn [fst].
    destruct (decide (sock = sock')) as [<-|Hne].
    + rewrite socketOf_setSocket. by destruct (_ && _).
    + by rewrite socketOf_setSocket_ne.
  - exists (λ sock',
      if bool_decide (sock = sock') && (bb sock && osJoin env sock group interface)
      then {[ (addrText group, ifName interface) ]} else ∅).
    intros st sock' Hbb. unfold joinMulticastGroup. cbn [fst].
    destruct (decide (sock = sock')) as [<-|Hne].
    + rewrite socketOf_setSocket, bool_decide_eq_true_2, Hbb by done.
      cbn [andb]. destruct (_ && _); cbn; set_solver.
    + rewrite socketOf_setSocket_ne, bool_decide_eq_false_2 by done.
      cbn [andb]. set_solver.
Qed.

Lemma adds_joinOn bb env b4 b6 interface : adds bb (joinOn env b4 b6 interface).
Proof.
  unfold joinOn. destruct (negb _); [|apply adds_skip].
  destruct (scanAddresses _) as [a4 a6].
  apply adds_andThen; apply adds_when, adds_joinMulticastGroup.
Qed.

Lemma socketOf_probed sock st :
  socketOf sock (probed st) =
    if isBound (socketOf sock st) then socketOf sock st
    else bound (socketOf sock st).
Proof.
  unfold probed. destruct sock.
  - rewrite (socketOf_written_ne IPv6 IPv4) by done. apply socketOf_written.
  - rewrite socketOf_written. by rewrite (socketOf_written_ne IPv4 IPv6).
Qed.

Lemma beginChecking_socketOf sock st :
  socketOf sock (beginChecking st).1 =
    if mHostnameConfirmed st || isBound (socketOf sock st)
    then socketOf sock st else bound (socketOf sock st).
Proof.
  rewrite beginChecking_spec. destruct (mHostnameConfirmed st); [done|].
  cbn [fst orb]. rewrite socketOf_probed. by destruct sock.
Qed.


(** The sockets after [joinGroups]: with a socket bound, the joins of the
    run are added, and unless the hostname is confirmed the probes bind
    what is not bound. *)
Lemma joinGroups_socketOf env sock st :
  socketOf sock (joinGroups env st).1 =
    if isBound (mIpv4Socket st) || isBound (mIpv6Socket st)
    then
      let s :=
        socketOf sock
          (foreach (allInterfaces env)
             (joinOn env (isBound (mIpv4Socket st)) (isBound (mIpv6Socket st)))
             st).1 in
      if mHostnameConfirmed st || isBound s then s else bound s
    else socketOf sock st.
Proof.
  rewrite joinGroups_fst. destruct (_ || _); [|done].
  rewrite beginChecking_socketOf. cbn zeta.
  by destruct (respects_foreach frameSockets (allInterfaces env)
                 (joinOn env (isBound (mIpv4Socket st)) (isBound (mIpv6Socket st)))
                 (joinOn_frame env _ _) st) as (_ & _ & _ & -> & _).
Qed.


Lemma onSocketTimeout_socketOf env sock st :
  socketOf sock (onSocketTimeout env st).1 =
    socketOf sock (joinGroups env (bindSockets env st).1).1.
Proof. unfold onSocketTimeout. rewrite !andThen_fst. by destruct sock. Qed.

Lemma isBound_bindSockets env sock st :
  isBound (socketOf sock (bindSockets env st).1) =
    isBound (socketOf sock st) || bindResult env sock (anyAddress sock).
Proof.
  rewrite bindSockets_socketOf.
  destruct (isBound (socketOf sock st)) eqn:Hb; [done|].
  destruct (bindResult env sock (anyAddress sock)); [done|]. by rewrite Hb.
Qed.


Lemma scanAddresses_spec addresses :
  scanAddresses addresses =
    (existsb (λ a, bool_decide (addrProtocol a = IPv4Protocol)) addresses,
     existsb (λ a, bool_decide (addrProtocol a = IPv6Protocol)) addresses).
Proof.
  unfold scanAddresses.
  enough (∀ b4 b6,
    foldl (λ '(ipv4Address, ipv6Address) a,
             (ipv4Address || bool_decide (addrProtocol a = IPv4Protocol),
              ipv6Address || bool_decide (addrProtocol a = IPv6Protocol)))
      (b4, b6) addresses =
    (b4 || existsb (λ a, bool_decide (addrProtocol a = IPv4Protocol)) addresses,
     b6 || existsb (λ a, bool_decide (addrProtocol a = IPv6Protocol)) addresses))
    as H by apply H.
  induction addresses as [|a l IH]; intros b4 b6; cbn [foldl existsb].
  - by rewrite !orb_false_r.
  - by rewrite IH, !orb_assoc.
Qed.

(** The joins that the loop body requests on one interface: both hang on
    the host having an IPv6 address ([ipv6Address], lines 94 and 97); the
    flag [ipv4Address] of line 91 decides nothing. *)
Lemma joinOn_requests env ipv4Bound ipv6Bound interface st :
  (joinOn env ipv4Bound ipv6Bound interface st).2 =
    if negb (Z.land (ifFlags interface) CanMulticast =? 0)
       && existsb (λ a, bool_decide (addrProtocol a = IPv6Protocol))
            (allAddresses env)
    then (if ipv4Bound
          then [JoinMulticastGroup IPv4 MdnsIpv4Address interface] else [])
         ++ (if ipv6Bound
             then [JoinMulticastGroup IPv6 MdnsIpv6Address interface] else [])
    else [].
Proof.
  unfold joinOn. destruct (negb _); [|done].
  rewrite scanAddresses_spec. cbn [andb].
  destruct (existsb _ (allAddresses env)); rewrite andThen_snd;
    unfold when; rewrite ?andb_false_r, ?andb_true_r; cbn [skip snd app];
    [|done].
  by destruct ipv4Bound, ipv6Bound.
Qed.

(** ** Further properties of the methods *)

(** *** What a maintenance run puts out *)

Lemma bindSocket_out env sock a st :
  (bindSocket env sock a st).2 = bindErrors env sock a.
Proof.
  assert (∀ st0, (bindReuse env sock a st0).2 =
                 if osBind env sock a ReuseAddressHint then []
                 else [EmitError (BindError sock)]) as Hr.
  { intros st0. unfold bindReuse, bind.
    by destruct (osBind env sock a ReuseAddressHint). }
  unfold bindSocket, bindErrors. destruct Q_OS_UNIX; [|apply Hr].
  unfold bind. destruct (osBind env sock a ShareAddress); [done|].
  rewrite andThen_snd, Hr. unfold when.
  by destruct (osSetsockopt env sock).
Qed.

Lemma bindSockets_out env st :
  (bindSockets env st).2 =
    (if isBound (mIpv4Socket st) then [] else bindErrors env IPv4 AnyIPv4)
    ++ (if isBound (mIpv6Socket st) then [] else bindErrors env IPv6 AnyIPv6).
Proof.
  unfold bindSockets. rewrite andThen_snd. unfold when at 1 2 3.
  assert (mIpv6Socket
            (if negb (isBound (mIpv4Socket st))
             then bindSocket env IPv4 AnyIPv4 st else skip st).1
          = mIpv6Socket st) as ->.
  { destruct (negb _); [|done]. by apply (bindSocket_other env IPv4 IPv6). }
  f_equal.
  - destruct (isBound (mIpv4Socket st)); [done|]. apply bindSocket_out.
  - destruct (isBound (mIpv6Socket st)); [done|]. apply bindSocket_out.
Qed.

Lemma foreach_joinOn_out env b4 b6 l st :
  (foreach l (joinOn env b4 b6) st).2 = l ≫= joinRequests env b4 b6.
Proof.
  revert st. induction l as [|i l IH]; intros st; [done|].
  cbn [foreach]. rewrite andThen_snd, IH, bind_cons. f_equal.
  apply joinOn_requests.
Qed.

Lemma joinGroups_timers env st :
  mSocketTimer (joinGroups env st).1 = mSocketTimer st ∧
  mHostnameTimer (joinGroups env st).1 = mHostnameTimer st ∧
  mHostnameConfirmed (joinGroups env st).1 = mHostnameConfirmed st.
Proof.
  rewrite joinGroups_fst. destruct (_ || _); [|done].
  destruct (respects_foreach frameSockets (allInterfaces env)
              (joinOn env (isBound (mIpv4Socket st)) (isBound (mIpv6Socket st)))
              (joinOn_frame env _ _) st) as (Hs & Ht & _ & Hc & _).
  rewrite beginChecking_spec.
  destruct (mHostnameConfirmed (foreach _ _ st).1) eqn:E; cbn [fst];
    probed_fields; cbn; repeat split; congruence.
Qed.

Lemma joinGroups_prober env st :
  mHostname (joinGroups env st).1 =
    (if (isBound (mIpv4Socket st) || isBound (mIpv6Socket st))
        && negb (mHostnameConfirmed st)
     then localHostName +:+ ".local." else mHostname st) ∧
  mHostnameSuffix (joinGroups env st).1 =
    (if (isBound (mIpv4Socket st) || isBound (mIpv6Socket st))
        && negb (mHostnameConfirmed st)
     then 1 else mHostnameSuffix st).
Proof.
  rewrite joinGroups_fst. destruct (_ || _); [|done].
  destruct (respects_foreach frameSockets (allInterfaces env)
              (joinOn env (isBound (mIpv4Socket st)) (isBound (mIpv6Socket st)))
              (joinOn_frame env _ _) st) as (_ & _ & Hh & Hc & Hs).
  rewrite beginChecking_spec, Hc.
  destruct (mHostnameConfirmed st); cbn [fst andb negb]; [done|].
  by probed_fields.
Qed.

Lemma joinGroups_out env st :
  (joinGroups env st).2 =
    if isBound (mIpv4Socket st) || isBound (mIpv6Socket st)
    then (allInterfaces env
            ≫= joinRequests env (isBound (mIpv4Socket st)) (isBound (mIpv6Socket st)))
         ++ (if mHostnameConfirmed st then [] else bareProbes)
    else [].
Proof.
  unfold joinGroups, when. destruct (_ || _); [|done].
  rewrite andThen_snd, foreach_joinOn_out, beginChecking_spec. f_equal.
  destruct (respects_foreach frameSockets (allInterfaces env)
              (joinOn env (isBound (mIpv4Socket st)) (isBound (mIpv6Socket st)))
              (joinOn_frame env _ _) st) as (_ & _ & _ & -> & _).
  by destruct (mHostnameConfirmed st).
Qed.

(** The whole output of a maintenance run: the bind errors, then, with a
    socket bound, the join requests and the probes of a restart. *)
Lemma onSocketTimeout_out env st :
  (onSocketTimeout env st).2 =
    (bindSockets env st).2
    ++ (if isBound (mIpv4Socket (bindSockets env st).1)
           || isBound (mIpv6Socket (bindSockets env st).1)
        then (allInterfaces env
                ≫= joinRequests env
                     (isBound (mIpv4Socket (bindSockets env st).1))
                     (isBound (mIpv6Socket (bindSockets env st).1)))
             ++ (if mHostnameConfirmed st then [] else bareProbes)
        else []).
Proof.
  unfold onSocketTimeout. rewrite !andThen_snd. cbn [modify snd].
  rewrite app_nil_r, joinGroups_out. f_equal.
  by destruct (bindSockets_frame env st) as (_ & _ & _ & -> & _).
Qed.

Lemma isBound_foreach_joinOn env b4 b6 l sock st :
  isBound (socketOf sock (foreach l (joinOn env b4 b6) st).1)
  = isBound (socketOf sock st).
Proof. unfold isBound. by rewrite foreach_joinOn_state. Qed.

(** Which sockets a maintenance run leaves bound: those the bind attempts
    left bound, and both when it sends the probes. *)
Lemma isBound_after_tick env sock st :
  isBound (socketOf sock (onSocketTimeout env st).1)
  = isBound (socketOf sock (bindSockets env st).1)
    || (negb (mHostnameConfirmed st)
        && (isBound (mIpv4Socket (bindSockets env st).1)
            || isBound (mIpv6Socket (bindSockets env st).1))).
Proof.
  rewrite onSocketTimeout_socketOf, joinGroups_socketOf. cbn zeta.
  destruct (bindSockets_frame env st) as (_ & _ & _ & -> & _).
  destruct (isBound (mIpv4Socket _) || isBound (mIpv6Socket _)) eqn:Hb.
  - rewrite isBound_foreach_joinOn.
    destruct (mHostnameConfirmed st); cbn [orb negb andb].
    + by rewrite isBound_foreach_joinOn, orb_false_r.
    + destruct (isBound (socketOf sock (bindSockets env st).1)) eqn:Hs; cbn [orb].
      * by rewrite isBound_foreach_joinOn.
      * done.
  - by rewrite andb_false_r, orb_false_r.
Qed.

Lemma isBound_after_tick_mono env sock st :
  isBound (socketOf sock (bindSockets env st).1) = true →
  isBound (socketOf sock (onSocketTimeout env st).1) = true.
Proof. intros Hb. by rewrite isBound_after_tick, Hb. Qed.

Lemma bindErrors_errors env sock a :
  Forall (λ e, isError e = true) (bindErrors env sock a).
Proof.
  unfold bindErrors.
  destruct Q_OS_UNIX, (osBind env sock a ShareAddress),
    (osSetsockopt env sock), (osBind env sock a ReuseAddressHint);
    by repeat constructor.
Qed.

Lemma bindSockets_errors env st :
  Forall (λ e, isError e = true) (bindSockets env st).2.
Proof.
  rewrite bindSockets_out. apply Forall_app.
  split; (destruct (isBound _); [constructor|apply bindErrors_errors]).
Qed.

Lemma BindError_in_bindErrors env sock a :
  EmitError (BindError sock) ∈ bindErrors env sock a ↔
  bindResult env sock a = false.
Proof.
  unfold bindErrors, bindResult.
  destruct Q_OS_UNIX, (osBind env sock a ShareAddress),
    (osSetsockopt env sock), (osBind env sock a ReuseAddressHint); cbn;
    rewrite ?elem_of_cons, ?elem_of_nil; naive_solver.
Qed.

(** X2. [bindSocket] on a socket that is not bound leaves it bound exactly
    when the operating system accepts one of the binds the platform tries,
    and emits the bind error exactly when it leaves the socket unbound.  It
    keeps the socket's memberships, the other socket and everything else in
    the server. *)
Theorem bindSocket_reports env sock a st :
  isBound (socketOf sock st) = false →
  isBound (socketOf sock (bindSocket env sock a st).1) = bindResult env sock a ∧
  (EmitError (BindError sock) ∈ (bindSocket env sock a st).2 ↔
   isBound (socketOf sock (bindSocket env sock a st).1) = false) ∧
  memberships (socketOf sock (bindSocket env sock a st).1)
    = memberships (socketOf sock st) ∧
  (∀ sock', sock ≠ sock' →
     socketOf sock' (bindSocket env sock a st).1 = socketOf sock' st) ∧
  frameSockets st (bindSocket env sock a st).1.
Proof.
  intros Hb. rewrite bindSocket_socketOf, bindSocket_out, BindError_in_bindErrors.
  assert (∀ sock', sock ≠ sock' →
            socketOf sock' (bindSocket env sock a st).1 = socketOf sock' st) as Ho
    by (intros sock' ?; by apply bindSocket_other).
  pose proof (bindSocket_frame env sock a st) as Hf.
  destruct (bindResult env sock a); cbn; rewrite ?Hb; naive_solver.
Qed.

(** X1. [checkHostname] writes exactly one datagram, on the socket of the
    family asked for and on no other, to that family's multicast group and
    port 5353; the datagram is the packet of a message whose only query
    asks for the current candidate with type A.  The write changes the
    server in one way at most: a socket of that family that is not bound
    is bound by it, keeping its memberships.  A bound socket, the other
    socket, the timers, the candidate, the counter and the confirmation
    flag stay as they were: in particular no timer is started. *)
Theorem checkHostname_probe p st :
  ∃ m,
    checkHostname p st
      = (written p st, [WriteDatagram p (toPacket m) (mdnsAddress p) MdnsPort]) ∧
    (queries m = [{| queryName := mHostname st; queryType := A |}] ∧
     address m = mdnsAddress p ∧ port m = MdnsPort ∧ protocol m = p) ∧
    (socketOf p (written p st) =
       (if isBound (socketOf p st) then socketOf p st
        else bound (socketOf p st)) ∧
     (isBound (socketOf p st) = true → written p st = st) ∧
     (∀ sock', p ≠ sock' → socketOf sock' (written p st) = socketOf sock' st) ∧
     frameSockets st (written p st)).
Proof.
  exists (probe (mHostname st) p).
  split; [apply checkHostname_spec|]. split; [done|].
  split; [apply socketOf_written|]. split; [apply written_bound|].
  split; [intros sock' ?; by apply socketOf_written_ne|].
  apply frameSockets_written.
Qed.

(** *** The timers *)

Lemma onSocketTimeout_socketTimer env st :
  mSocketTimer (onSocketTimeout env st).1 = start (60 * 1000) (mSocketTimer st).
Proof.
  unfold onSocketTimeout. rewrite !andThen_fst. cbn [modify fst].
  cbn [setSocketTimer mSocketTimer]. f_equal.
  destruct (joinGroups_timers env (bindSockets env st).1) as (-> & _).
  by destruct (bindSockets_frame env st) as (-> & _).
Qed.

Lemma step_socketTimer st ev st' out :
  step st ev = Some (st', out) →
  match ev with
  | SocketTimeout _ =>
      mSocketTimer st' = start (60 * 1000) (expire (mSocketTimer st))
  | _ => mSocketTimer st' = mSocketTimer st
  end.
Proof.
  intros Hstep. destruct ev as [env| |sock packet a p].
  - apply step_Some in Hstep as (_ & -> & _). cbn [handle].
    rewrite andThen_fst. cbn [modify fst]. by rewrite onSocketTimeout_socketTimer.
  - by apply step_confirm in Hstep as (_ & _ & ->).
  - apply step_read in Hstep as (_ & _ & Hst).
    destruct (_ && _); subst st'; [|done]. rewrite retry_fst. by probed_fields.
Qed.

(** X3. The maintenance never stops: after the constructor and after every
    run of the event loop, the socket timer is single-shot and running with
    an interval of 60000 milliseconds, so the next maintenance run is always
    pending. *)
Theorem socket_timer_always_running env junk evs st out :
  run (construct env junk).1 evs = Some (st, out) →
  singleShot (mSocketTimer st) = true ∧ isActive (mSocketTimer st) = true ∧
  interval (mSocketTimer st) = 60000.
Proof.
  assert (ticking (construct env junk).1) as Hinit.
  { unfold construct. rewrite !andThen_fst. cbn [modify fst].
    unfold ticking. by rewrite onSocketTimeout_socketTimer. }
  revert Hinit. generalize (construct env junk).1. intros st0. revert st0 out.
  induction evs as [|ev evs IH]; intros st0 out Hinv Hrun.
  - cbn in Hrun. by injection Hrun as <- <-.
  - apply run_cons in Hrun as (st1 & out1 & out2 & Hstep & Hrun & ->).
    apply (IH st1 out2); [|done].
    apply step_socketTimer in Hstep. destruct Hinv as (Hs & Ha & Hi).
    unfold ticking. destruct ev; rewrite Hstep; cbn; by rewrite ?Hs.
Qed.

(** *** The sockets *)

#[local] Instance socketsGrow_preorder : PreOrder socketsGrow.
Proof.
  split.
  - intros st sock. by split.
  - intros st1 st2 st3 H12 H23 sock.
    destruct (H12 sock) as [Hb12 Hm12], (H23 sock) as [Hb23 Hm23].
    split; [auto|]. by etrans.
Qed.

Lemma socketsGrow_probed st : socketsGrow st (probed st).
Proof.
  intros sock. rewrite memberships_probed, isBound_probed. by split.
Qed.

Lemma onSocketTimeout_grows env st : socketsGrow st (onSocketTimeout env st).1.
Proof.
  intros sock. split.
  - intros Hb. apply isBound_after_tick_mono.
    by rewrite isBound_bindSockets, Hb.
  - rewrite onSocketTimeout_socketOf, joinGroups_socketOf. cbn zeta.
    set (st1 := (bindSockets env st).1).
    assert (memberships (socketOf sock st) = memberships (socketOf sock st1)) as ->.
    { unfold st1. rewrite bindSockets_socketOf.
      destruct (isBound (socketOf sock st)); [done|].
      by destruct (bindResult env sock (anyAddress sock)). }
    destruct (isBound (mIpv4Socket st1) || isBound (mIpv6Socket st1)); [|done].
    destruct (adds_foreach (λ s, isBound (socketOf s st1)) (allInterfaces env)
                (joinOn env (isBound (mIpv4Socket st1)) (isBound (mIpv6Socket st1)))
                (adds_joinOn _ env _ _)) as [_ [K HK]].
    destruct (mHostnameConfirmed st1 || isBound _); cbn [bound memberships];
      rewrite HK by done; set_solver.
Qed.

Lemma step_grows st ev st' out :
  step st ev = Some (st', out) → socketsGrow st st'.
Proof.
  intros Hstep. destruct ev as [env| |sock packet a p].
  - apply step_Some in Hstep as (_ & -> & _). cbn [handle].
    rewrite andThen_fst. cbn [modify fst].
    intros sock.
    destruct (onSocketTimeout_grows env
                (setSocketTimer (expire (mSocketTimer st)) st) sock) as [Hb Hm].
    by destruct sock.
  - apply step_confirm in Hstep as (_ & _ & ->). intros sock. by destruct sock.
  - apply step_read in Hstep as (_ & _ & Hst).
    destruct (_ && _); subst st'; [|done].
    rewrite retry_fst.
    etrans; [|apply socketsGrow_probed]. intros sock'. by destruct sock'.
Qed.

(** X4. No event ever unbinds a socket or drops a multicast membership:
    over every run of the event loop, from any state, a socket that was
    bound is still bound and each socket still holds every membership it
    held. *)
Theorem sockets_only_grow st evs st' out :
  run st evs = Some (st', out) →
  ∀ sock,
    (isBound (socketOf sock st) = true → isBound (socketOf sock st') = true) ∧
    memberships (socketOf sock st) ⊆ memberships (socketOf sock st').
Proof.
  enough (run st evs = Some (st', out) → socketsGrow st st') by done.
  revert st out. induction evs as [|ev evs IH]; intros st out Hrun.
  - cbn in Hrun. by injection Hrun as <- <-.
  - apply run_cons in Hrun as (st1 & out1 & out2 & Hstep & Hrun & ->).
    etrans; [by eapply step_grows|by eapply IH].
Qed.

(** *** The joins and the errors of a maintenance run *)


Lemma joinRequests_joins env b4 b6 interface :
  Forall (λ e, isJoin e = true) (joinRequests env b4 b6 interface).
Proof.
  unfold joinRequests. destruct (_ && _); [|constructor].
  destruct b4, b6; by repeat constructor.
Qed.

Lemma bareProbes_writes : Forall (λ e, isWrite e = true) bareProbes.
Proof. by repeat constructor. Qed.


(** X6. A maintenance run does not bind again what is bound: with both
    sockets bound it emits no error at all, whatever the operating system
    would answer to a bind. *)
Theorem bound_sockets_not_rebound env st :
  isBound (mIpv4Socket st) = true → isBound (mIpv6Socket st) = true →
  Forall (λ e, isError e = false) (onSocketTimeout env st).2 ∧
  ∀ sock, state (socketOf sock (onSocketTimeout env st).1) = BoundState.
Proof.
  intros H4 H6. split.
  - rewrite onSocketTimeout_out, bindSockets_out, H4, H6. cbn [app].
    destruct (_ || _); [|constructor].
    apply Forall_app. split.
    + apply Forall_forall. intros e (i & He & _)%list_elem_of_bind.
      eapply Forall_forall in He; [|apply joinRequests_joins].
      by destruct e.
    + destruct (mHostnameConfirmed st); by repeat constructor.
  - intros sock.
    assert (isBound (socketOf sock (onSocketTimeout env st).1) = true) as Hb.
    { apply isBound_after_tick_mono. rewrite bindSockets_socketOf.
      by destruct sock; cbn [socketOf]; rewrite ?H4, ?H6. }
    by apply bool_decide_eq_true in Hb.
Qed.

(** X7. When no socket is bound and the operating system refuses both
    binds, a maintenance run reports a bind error for each socket and does
    nothing else: both sockets stay as they were, nothing is joined,
    nothing is sent, and candidate, counter and confirmation flag are
    untouched. *)
Theorem nothing_bound_nothing_done env st :
  isBound (mIpv4Socket st) = false → isBound (mIpv6Socket st) = false →
  bindResult env IPv4 AnyIPv4 = false → bindResult env IPv6 AnyIPv6 = false →
  sockets (onSocketTimeout env st).1 = sockets st ∧
  frameSockets
    (setSocketTimer (start (60 * 1000) (mSocketTimer st)) st)
    (onSocketTimeout env st).1 ∧
  Forall (λ e, isError e = true) (onSocketTimeout env st).2 ∧
  EmitError (BindError IPv4) ∈ (onSocketTimeout env st).2 ∧
  EmitError (BindError IPv6) ∈ (onSocketTimeout env st).2.
Proof.
  intros H4 H6 Hr4 Hr6.
  assert (∀ sock, socketOf sock (bindSockets env st).1 = socketOf sock st) as Hsame.
  { intros sock. rewrite bindSockets_socketOf.
    by destruct sock; cbn [socketOf anyAddress]; rewrite ?H4, ?H6, ?Hr4, ?Hr6. }
  pose proof (Hsame IPv4) as Hs4. pose proof (Hsame IPv6) as Hs6.
  cbn [socketOf] in Hs4, Hs6.
  assert ((joinGroups env (bindSockets env st).1).1 = (bindSockets env st).1)
    as Hjoin.
  { rewrite joinGroups_fst. by rewrite Hs4, Hs6, H4, H6. }
  split; [|split; [|split; [|split]]].
  - unfold sockets. f_equal.
    + rewrite (onSocketTimeout_socketOf env IPv4 st : mIpv4Socket _ = _).
      by rewrite Hjoin.
    + rewrite (onSocketTimeout_socketOf env IPv6 st : mIpv6Socket _ = _).
      by rewrite Hjoin.
  - unfold onSocketTimeout. rewrite !andThen_fst. cbn [modify fst].
    rewrite Hjoin.
    destruct (bindSockets_frame env st) as (Ht1 & Ht2 & Hh & Hc & Hs).
    unfold frameSockets. cbn. by rewrite Ht1.
  - rewrite onSocketTimeout_out, Hs4, Hs6, H4, H6. cbn [orb].
    rewrite app_nil_r. apply bindSockets_errors.
  - rewrite onSocketTimeout_out, bindSockets_out, H4, H6.
    apply elem_of_app. left. apply elem_of_app. left.
    by apply BindError_in_bindErrors.
  - rewrite onSocketTimeout_out, bindSockets_out, H4, H6.
    apply elem_of_app. left. apply elem_of_app. right.
    by apply BindError_in_bindErrors.
Qed.

(** X12. A join that fails is not reported: two maintenance runs in
    surroundings that differ only in how the operating system answers the
    joins put out the same things (the same errors, the same join requests,
    the same probes) and leave the same candidate, counter, flag and
    timers. *)
Theorem join_failures_silent env env' st :
  sameButJoins env env' →
  (onSocketTimeout env' st).2 = (onSocketTimeout env st).2 ∧
  frameSockets (onSocketTimeout env st).1 (onSocketTimeout env' st).1.
Proof.
  intros (Hi & Ha & Hb & Hs).
  assert (∀ sock a st0, bindSocket env' sock a st0 = bindSocket env sock a st0)
    as Hbind.
  { intros sock a st0. unfold bindSocket, bindReuse, bind, when, andThen.
    by rewrite !Hb, Hs. }
  assert (∀ st0, bindSockets env' st0 = bindSockets env st0) as Hbinds.
  { intros st0. unfold bindSockets, andThen. unfold when at 1 3.
    rewrite Hbind.
    destruct (if negb (isBound (mIpv4Socket st0))
              then bindSocket env IPv4 AnyIPv4 st0 else skip st0) as [st1 out1].
    unfold when. by rewrite Hbind. }
  assert (∀ b4 b6 i, joinRequests env' b4 b6 i = joinRequests env b4 b6 i) as Hreq.
  { intros b4 b6 i. unfold joinRequests. by rewrite Ha. }
  split.
  - assert (∀ (l : list QNetworkInterface) b4 b6,
              l ≫= joinRequests env' b4 b6 = l ≫= joinRequests env b4 b6) as Hall.
    { intros l b4 b6. induction l as [|i l IH]; [done|].
      by rewrite !bind_cons, Hreq, IH. }
    by rewrite !onSocketTimeout_out, Hbinds, Hi, Hall.
  - unfold onSocketTimeout. rewrite !andThen_fst. cbn [modify fst].
    rewrite Hbinds. set (st1 := (bindSockets env st).1).
    destruct (joinGroups_timers env st1) as (Ht1 & Ht2 & Hc).
    destruct (joinGroups_timers env' st1) as (Ht1' & Ht2' & Hc').
    destruct (joinGroups_prober env st1) as (Hh & Hsf).
    destruct (joinGroups_prober env' st1) as (Hh' & Hsf').
    unfold frameSockets. cbn. repeat split; congruence.
Qed.

(** *** Datagrams *)

(** X11. What handling a datagram puts out.  A datagram that decodes is
    announced by exactly one [messageReceived], query or response alike,
    and this comes first; after it come the two probes of a retry when the
    message is a response with a record that conflicts with the candidate
    and the hostname is unconfirmed, and nothing otherwise.  No error is
    ever emitted. *)
Theorem onReadyRead_output sock packet a p message st :
  fromPacket packet = Some message →
  (handle (ReadyRead sock packet a p) st).2 =
    EmitMessageReceived (annotate a p message)
    :: (if isResponse message
           && existsb (conflicts (mHostname st)) (records message)
           && negb (mHostnameConfirmed st)
        then [probeDatagram (retryName (mHostnameSuffix st)) IPv4;
              probeDatagram (retryName (mHostnameSuffix st)) IPv6]
        else []).
Proof.
  intros Hdec. cbn [handle]. unfold onReadyRead. rewrite Hdec.
  rewrite andThen_snd. cbn [emit fst snd app]. f_equal.
  unfold onMessageReceived, when.
  cbn [records annotate setPort setProtocol setAddress isResponse].
  destruct (isResponse message); cbn [andb]; [|done].
  destruct (mHostnameConfirmed st) eqn:Hc; cbn [negb].
  { by rewrite andb_false_r, scanRecords_confirmed. }
  rewrite andb_true_r.
  destruct (existsb _ _) eqn:He.
  - rewrite scanRecords_exists by done. by rewrite retry_spec.
  - by rewrite scanRecords_not_exists.
Qed.

Lemma step_silent st ev st' out :
  mHostnameConfirmed st = true → step st ev = Some (st', out) →
  Forall (λ e, isWrite e = false) out ∧
  mHostnameConfirmed st' = true ∧ mHostname st' = mHostname st ∧
  mHostnameSuffix st' = mHostnameSuffix st.
Proof.
  intros Hc Hstep. destruct ev as [env| |sock packet a p].
  - pose proof Hstep as Hstep'.
    apply step_tick in Hstep as (_ & _ & Hc' & [(? & _)|(_ & ? & ?)]);
      [congruence|].
    split; [|by rewrite Hc'].
    apply step_Some in Hstep' as (_ & _ & ->). cbn [handle].
    rewrite andThen_snd. cbn [modify fst snd app].
    rewrite onSocketTimeout_out. cbn [mHostnameConfirmed setSocketTimer].
    rewrite Hc. apply Forall_app. split.
    + eapply Forall_impl; [apply bindSockets_errors|]. by intros [].
    + destruct (_ || _); [|constructor]. rewrite app_nil_r.
      apply Forall_forall. intros e (i & He & _)%list_elem_of_bind.
      eapply Forall_forall in He; [|apply joinRequests_joins]. by destruct e.
  - apply step_confirm in Hstep as (_ & -> & ->). by repeat constructor.
  - pose proof Hstep as Hstep'.
    apply step_read in Hstep as (_ & _ & Hst).
    rewrite Hc, andb_false_r in Hst. subst st'. split; [|done].
    apply step_Some in Hstep' as (_ & _ & ->).
    cbn [handle]. unfold onReadyRead.
    destruct (fromPacket packet) as [message|] eqn:Hdec; [|constructor].
    pose proof (onReadyRead_output sock packet a p message st Hdec) as Hout.
    cbn [handle] in Hout. unfold onReadyRead in Hout. rewrite Hdec in Hout.
    rewrite Hout, Hc, andb_false_r. by repeat constructor.
Qed.

(** X9. After confirmation the server sends nothing any more: from a state
    with the hostname confirmed, no run of the event loop writes a datagram,
    whatever responses arrive and however often the maintenance runs, and
    candidate, counter and flag stay as they are. *)
Theorem confirmed_server_is_silent st evs st' out :
  mHostnameConfirmed st = true →
  run st evs = Some (st', out) →
  Forall (λ e, isWrite e = false) out ∧
  mHostnameConfirmed st' = true ∧ mHostname st' = mHostname st ∧
  mHostnameSuffix st' = mHostnameSuffix st.
Proof.
  revert st out. induction evs as [|ev evs IH]; intros st out Hc Hrun.
  - cbn in Hrun. injection Hrun as <- <-. by repeat split.
  - apply run_cons in Hrun as (st1 & out1 & out2 & Hstep & Hrun & ->).
    destruct (step_silent _ _ _ _ Hc Hstep) as (Hw1 & Hc1 & Hh1 & Hs1).
    destruct (IH _ _ Hc1 Hrun) as (Hw2 & Hc2 & Hh2 & Hs2).
    repeat split; [by apply Forall_app|done|congruence|congruence].
Qed.

(** *** Candidates *)





(** *** Restarting the probing *)

(** X13. A maintenance run that ends with a socket bound while the
    hostname is unconfirmed starts the probing afresh, whatever candidate
    was being probed: the candidate becomes the bare name, the counter
    becomes 1, and the last two things the run does are to write the probes
    of the bare name, first on the IPv4 socket, then on the IPv6 socket. *)
Theorem tick_restarts_probing env st :
  mHostnameConfirmed st = false →
  isBound (mIpv4Socket (onSocketTimeout env st).1)
  || isBound (mIpv6Socket (onSocketTimeout env st).1) = true →
  mHostname (onSocketTimeout env st).1 = localHostName +:+ ".local." ∧
  mHostnameSuffix (onSocketTimeout env st).1 = 1 ∧
  ∃ before,
    (onSocketTimeout env st).2 = before ++ bareProbes ∧
    Forall (λ e, isWrite e = false) before.
Proof.
  intros Hc Hb.
  destruct (onSocketTimeout_prober env st)
    as (_ & _ & [(_ & _ & Hh & Hs)|([?|Hb'] & _)]); [|congruence..].
  split; [done|]. split; [done|].
  rewrite onSocketTimeout_out, Hc.
  rewrite (isBound_after_tick env IPv4 st : isBound (mIpv4Socket _) = _) in Hb.
  rewrite (isBound_after_tick env IPv6 st : isBound (mIpv6Socket _) = _) in Hb.
  cbn [socketOf] in Hb. rewrite Hc in Hb. cbn [negb andb] in Hb.
  assert (isBound (mIpv4Socket (bindSockets env st).1)
          || isBound (mIpv6Socket (bindSockets env st).1) = true) as ->.
  { by destruct (isBound (mIpv4Socket _)), (isBound (mIpv6Socket _)). }
  eexists. split; [by rewrite app_assoc|].
  apply Forall_app. split.
  - eapply Forall_impl; [apply bindSockets_errors|]. by intros [].
  - apply Forall_forall. intros e (i & He & _)%list_elem_of_bind.
    eapply Forall_forall in He; [|apply joinRequests_joins]. by destruct e.
Qed.

Lemma bindErrors_own env sock a e :
  e ∈ bindErrors env sock a →
  e = EmitError (SetsockoptError sock) ∨ e = EmitError (BindError sock).
Proof.
  unfold bindErrors.
  destruct Q_OS_UNIX, (osBind env sock a ShareAddress),
    (osSetsockopt env sock), (osBind env sock a ReuseAddressHint); cbn;
    rewrite ?elem_of_cons, ?elem_of_nil; naive_solver.
Qed.

Lemma joinMulticastGroup_unbound env sock group interface sock' st :
  isBound (socketOf sock' st) = false →
  socketOf sock' (joinMulticastGroup env sock group interface st).1
  = socketOf sock' st.
Proof.
  intros Hb. unfold joinMulticastGroup. cbn [fst].
  destruct (decide (sock = sock')) as [<-|Hne].
  - by rewrite socketOf_setSocket, Hb.
  - by rewrite socketOf_setSocket_ne.
Qed.

Lemma joinOn_unbound env b4 b6 interface sock st :
  isBound (socketOf sock st) = false →
  socketOf sock (joinOn env b4 b6 interface st).1 = socketOf sock st.
Proof.
  intros Hb. unfold joinOn. destruct (negb _); [|done].
  destruct (scanAddresses _) as [a4 a6]. rewrite andThen_fst. unfold when.
  destruct (b4 && a6), (b6 && a6); cbn [skip fst];
    rewrite ?joinMulticastGroup_unbound; try done;
    by rewrite joinMulticastGroup_unbound.
Qed.

Lemma foreach_joinOn_unbound env b4 b6 l sock st :
  isBound (socketOf sock st) = false →
  socketOf sock (foreach l (joinOn env b4 b6) st).1 = socketOf sock st.
Proof.
  revert st. induction l as [|i l IH]; intros st Hb; [done|].
  cbn [foreach]. rewrite andThen_fst, IH; [by apply joinOn_unbound|].
  by rewrite joinOn_unbound.
Qed.

(** X14. One family fails, the other binds.  When the server holds no
    bound socket and no confirmed hostname, and the operating system
    refuses the IPv4 bind and accepts the IPv6 bind, the maintenance run
    reports the bind error for IPv4 and none for IPv6, requests joins for
    the IPv6 socket only, and starts probing the bare name on both
    families.  The IPv4 socket, which [bindSocket] left unbound, is bound
    all the same when the run ends, by the probe written through it, and
    it holds the memberships it held before; the IPv6 socket is bound. *)
Theorem one_family_bound env st :
  isBound (mIpv4Socket st) = false → isBound (mIpv6Socket st) = false →
  mHostnameConfirmed st = false →
  bindResult env IPv4 AnyIPv4 = false → bindResult env IPv6 AnyIPv6 = true →
  (isBound (mIpv4Socket (bindSockets env st).1) = false ∧
   isBound (mIpv4Socket (onSocketTimeout env st).1) = true ∧
   memberships (mIpv4Socket (onSocketTimeout env st).1)
     = memberships (mIpv4Socket st) ∧
   isBound (mIpv6Socket (onSocketTimeout env st).1) = true) ∧
  (EmitError (BindError IPv4) ∈ (onSocketTimeout env st).2 ∧
   EmitError (BindError IPv6) ∉ (onSocketTimeout env st).2) ∧
  (∀ sock group interface,
     JoinMulticastGroup sock group interface ∈ (onSocketTimeout env st).2 →
     sock = IPv6) ∧
  mHostname (onSocketTimeout env st).1 = localHostName +:+ ".local." ∧
  (probeDatagram (localHostName +:+ ".local.") IPv4 ∈ (onSocketTimeout env st).2 ∧
   probeDatagram (localHostName +:+ ".local.") IPv6 ∈ (onSocketTimeout env st).2).
Proof.
  intros H4 H6 Hc Hr4 Hr6.
  assert (isBound (mIpv4Socket (bindSockets env st).1) = false) as Hb4.
  { rewrite (isBound_bindSockets env IPv4 st : isBound (mIpv4Socket _) = _).
    cbn [socketOf anyAddress]. by rewrite H4, Hr4. }
  assert (isBound (mIpv6Socket (bindSockets env st).1) = true) as Hb6.
  { rewrite (isBound_bindSockets env IPv6 st : isBound (mIpv6Socket _) = _).
    cbn [socketOf anyAddress]. by rewrite H6, Hr6. }
  assert (isBound (mIpv4Socket (onSocketTimeout env st).1) = true) as Ha4.
  { rewrite (isBound_after_tick env IPv4 st : isBound (mIpv4Socket _) = _).
    cbn [socketOf]. by rewrite Hb4, Hb6, Hc. }
  assert (isBound (mIpv6Socket (onSocketTimeout env st).1) = true) as Ha6.
  { by apply (isBound_after_tick_mono env IPv6). }
  destruct (tick_restarts_probing env st Hc) as (Hh & _ & before & Hout & Hbefore).
  { by rewrite Ha4. }
  split; [|split; [|split; [|split; [done|]]]].
  - split; [done|]. split; [done|]. split; [|done].
    rewrite (onSocketTimeout_socketOf env IPv4 st : mIpv4Socket _ = _).
    rewrite joinGroups_socketOf. cbn zeta. rewrite Hb4, Hb6. cbn [orb].
    rewrite foreach_joinOn_unbound by done.
    destruct (_ || _); cbn [bound memberships socketOf];
      rewrite (bindSockets_socketOf env IPv4 st : mIpv4Socket _ = _);
      cbn [socketOf anyAddress]; by rewrite H4, Hr4.
  - split.
    + rewrite onSocketTimeout_out, bindSockets_out, H4.
      apply elem_of_app. left. apply elem_of_app. left.
      by apply BindError_in_bindErrors.
    + rewrite onSocketTimeout_out, bindSockets_out, H4, H6.
      intros [[He|He]%elem_of_app|He]%elem_of_app.
      * by apply bindErrors_own in He as [?|?].
      * apply BindError_in_bindErrors in He. congruence.
      * destruct (_ || _); [|by apply elem_of_nil in He].
        apply elem_of_app in He as [(i & He & _)%list_elem_of_bind|He].
        -- eapply Forall_forall in He; [|apply joinRequests_joins]. done.
        -- rewrite Hc in He.
           eapply Forall_forall in He; [|apply bareProbes_writes]. done.
  - intros sock group interface. rewrite onSocketTimeout_out, Hb4, Hb6, Hc.
    cbn [orb]. intros [He|[He|He]%elem_of_app]%elem_of_app.
    + eapply Forall_forall in He; [|apply bindSockets_errors]. done.
    + apply list_elem_of_bind in He as (i & He & _).
      unfold joinRequests in He. destruct (_ && _); [|by apply elem_of_nil in He].
      cbn [app] in He. by apply list_elem_of_singleton in He as [= -> _ _].
    + eapply Forall_forall in He; [|apply bareProbes_writes]. done.
  - rewrite Hout. split; apply elem_of_app; right; unfold bareProbes;
      rewrite !elem_of_cons; auto.
Qed.


End Server.

(** ** The server on a sample host

    A Unix machine called ["host"] with the stand-in codec.  [started] is
    the server right after its constructor ran on [host6], where both
    sockets bind; [conflict1] is a datagram on the IPv6 socket that decodes
    to a response claiming ["host.local."]. *)

Local Abbreviation sampleRun := (run true "host" sampleToPacket sampleFromPacket).

Local Abbreviation sampleAfter :=
  (stateAfter true "host" sampleToPacket sampleFromPacket).

Local Abbreviation sampleOutput :=
  (outputOf true "host" sampleToPacket sampleFromPacket).

Local Abbreviation started := ((construct true "host" sampleToPacket host6 0).1).

Local Abbreviation conflict1 := (ReadyRead IPv6 [Byte.x01] peer6 5353%N).

(** [started] with the hostname timer running, as if something had started
    it. *)
Local Abbreviation armed :=
  (setHostnameTimer (start 2000 (mHostnameTimer started)) started).

(** C1. The code at the failing input: on a host whose only interface is
    multicast-capable and carries an IPv6 address and no IPv4 address, the
    constructor's maintenance run asks the IPv4 socket to join 224.0.0.251
    on that interface, and the socket ends up a member there. *)
Theorem ipv4_join_on_ipv6_only_interface :
  Forall (λ a, addrProtocol a ≠ IPv4Protocol) (addressEntries eth6) ∧
  Forall (λ a, addrProtocol a ≠ IPv4Protocol) (allAddresses host6) ∧
  JoinMulticastGroup IPv4 MdnsIpv4Address eth6
    ∈ (construct true "host" sampleToPacket host6 0).2 ∧
  ("224.0.0.251", "eth0") ∈ memberships (mIpv4Socket started).
Proof.
  split; [by repeat constructor|]. split; [by repeat constructor|].
  split; [vm_compute; by left|].
  apply elem_of_elements. vm_compute. by left.
Qed.

(** The other side of the same slip: on a host whose only interface
    carries an IPv4 address and no IPv6 address, no join is requested at
    all, although the IPv4 socket is bound. *)
Lemma ipv4_only_interface_never_joined :
  isBound (mIpv4Socket (construct true "host" sampleToPacket host4 0).1) = true ∧
  Forall (λ e, match e with JoinMulticastGroup _ _ _ => False | _ => True end)
    (construct true "host" sampleToPacket host4 0).2.
Proof. split; [done|]. vm_compute. by repeat constructor. Qed.

(** C2. The code at the failing input: the constructor binds, sends the
    probes for ["host.local."] and leaves the hostname timer stopped, so its
    timeout cannot happen; after a conflict the probes for
    ["host-1.local."] go out and the timer is stopped still. *)
Theorem hostname_timer_not_started :
  (probeDatagram sampleToPacket "host.local." IPv4
     ∈ (construct true "host" sampleToPacket host6 0).2 ∧
   isActive (mHostnameTimer started) = false ∧
   sampleRun started [HostnameTimeout] = None) ∧
  (probeDatagram sampleToPacket "host-1.local." IPv4
     ∈ sampleOutput started [conflict1] ∧
   isActive (mHostnameTimer (sampleAfter started [conflict1])) = false ∧
   sampleRun started [conflict1; HostnameTimeout] = None).
Proof.
  split; (split; [apply list_elem_of_In; vm_compute; auto 10|]); by vm_compute.
Qed.

(** C3, the claim as stated fails: after one conflict the counter is 2,
    and the next maintenance tick sets it back to 1. *)
Lemma suffix_decreases_on_tick :
  sampleRun started [conflict1; SocketTimeout host6]
    = Some (sampleAfter started [conflict1; SocketTimeout host6],
            sampleOutput started [conflict1; SocketTimeout host6]) ∧
  mHostnameSuffix (sampleAfter started [conflict1]) = 2 ∧
  mHostnameSuffix (sampleAfter started [conflict1; SocketTimeout host6]) = 1.
Proof. by vm_compute. Qed.

Lemma suffix_counter_monotone_witness :
  sampleRun started [conflict1; conflict1; ReadyRead IPv6 [Byte.x02] peer6 5353%N]
    = Some (sampleAfter started
              [conflict1; conflict1; ReadyRead IPv6 [Byte.x02] peer6 5353%N],
            sampleOutput started
              [conflict1; conflict1; ReadyRead IPv6 [Byte.x02] peer6 5353%N]) ∧
  mHostnameSuffix started
    ≤ mHostnameSuffix
        (sampleAfter started
           [conflict1; conflict1; ReadyRead IPv6 [Byte.x02] peer6 5353%N]) ∧
  mHostnameSuffix
    (sampleAfter started
       [conflict1; conflict1; ReadyRead IPv6 [Byte.x02] peer6 5353%N])
    = mHostnameSuffix started
      + Z.of_nat
          (conflictsSeen true "host" sampleToPacket sampleFromPacket started
             [conflict1; conflict1; ReadyRead IPv6 [Byte.x02] peer6 5353%N]).
Proof.
  split; [by vm_compute|].
  apply (suffix_counter_monotone true "host" sampleToPacket sampleFromPacket
           started _ _
           (sampleOutput started
              [conflict1; conflict1; ReadyRead IPv6 [Byte.x02] peer6 5353%N])).
  - by vm_compute.
  - right. by repeat constructor.
Defined.

Lemma hostnameConfirmed_once_witness :
  oneShot armed ∧
  sampleRun armed [conflict1; HostnameTimeout]
    = Some (sampleAfter armed [conflict1; HostnameTimeout],
            sampleOutput armed [conflict1; HostnameTimeout]) ∧
  sampleRun (sampleAfter armed [conflict1; HostnameTimeout])
      [ReadyRead IPv6 [Byte.x02] peer6 5353%N; SocketTimeout host6]
    = Some (sampleAfter (sampleAfter armed [conflict1; HostnameTimeout])
              [ReadyRead IPv6 [Byte.x02] peer6 5353%N; SocketTimeout host6],
            sampleOutput (sampleAfter armed [conflict1; HostnameTimeout])
              [ReadyRead IPv6 [Byte.x02] peer6 5353%N; SocketTimeout host6]) ∧
  ((confirmations
      (sampleOutput armed [conflict1; HostnameTimeout]
       ++ sampleOutput (sampleAfter armed [conflict1; HostnameTimeout])
            [ReadyRead IPv6 [Byte.x02] peer6 5353%N; SocketTimeout host6])
    ≤ 1)%nat ∧
   (∀ h, EmitHostnameConfirmed h ∈ sampleOutput armed [conflict1; HostnameTimeout] →
      mHostname (sampleAfter armed [conflict1; HostnameTimeout]) = h ∧
      mHostname
        (sampleAfter (sampleAfter armed [conflict1; HostnameTimeout])
           [ReadyRead IPv6 [Byte.x02] peer6 5353%N; SocketTimeout host6]) = h) ∧
   (mHostnameConfirmed (sampleAfter armed [conflict1; HostnameTimeout]) = true →
      mHostnameConfirmed
        (sampleAfter (sampleAfter armed [conflict1; HostnameTimeout])
           [ReadyRead IPv6 [Byte.x02] peer6 5353%N; SocketTimeout host6]) = true ∧
      mHostname
        (sampleAfter (sampleAfter armed [conflict1; HostnameTimeout])
           [ReadyRead IPv6 [Byte.x02] peer6 5353%N; SocketTimeout host6])
        = mHostname (sampleAfter armed [conflict1; HostnameTimeout]) ∧
      confirmations
        (sampleOutput (sampleAfter armed [conflict1; HostnameTimeout])
           [ReadyRead IPv6 [Byte.x02] peer6 5353%N; SocketTimeout host6])
        = 0%nat)).
Proof.
  assert (oneShot armed) as Hone by (split; [reflexivity|discriminate]).
  assert (sampleRun armed [conflict1; HostnameTimeout]
          = Some (sampleAfter armed [conflict1; HostnameTimeout],
                  sampleOutput armed [conflict1; HostnameTimeout])) as Hrun1
    by (vm_compute; reflexivity).
  assert (sampleRun (sampleAfter armed [conflict1; HostnameTimeout])
            [ReadyRead IPv6 [Byte.x02] peer6 5353%N; SocketTimeout host6]
          = Some (sampleAfter (sampleAfter armed [conflict1; HostnameTimeout])
                    [ReadyRead IPv6 [Byte.x02] peer6 5353%N; SocketTimeout host6],
                  sampleOutput (sampleAfter armed [conflict1; HostnameTimeout])
                    [ReadyRead IPv6 [Byte.x02] peer6 5353%N; SocketTimeout host6]))
    as Hrun2 by (vm_compute; reflexivity).
  split; [exact Hone|]. split; [exact Hrun1|]. split; [exact Hrun2|].
  exact (hostnameConfirmed_once true "host" sampleToPacket sampleFromPacket
           armed _ _ _ _ _ _ Hone Hrun1 Hrun2).
Defined.

(** C5, the claim as stated fails: after one conflict the candidate is
    ["host-1.local."] while the counter is 2, and the name that carries the
    counter's value is ["host-2.local."]. *)
Lemma candidate_suffix_lags_counter :
  mHostname (sampleAfter started [conflict1]) = "host-1.local." ∧
  mHostnameSuffix (sampleAfter started [conflict1]) = 2 ∧
  candidate_spec "host" (mHostnameSuffix (sampleAfter started [conflict1]))
    = "host-2.local." ∧
  mHostname (sampleAfter started [conflict1])
    ≠ candidate_spec "host" (mHostnameSuffix (sampleAfter started [conflict1])).
Proof. by vm_compute. Qed.

Lemma candidate_follows_counter_witness :
  noPercent "host" = true ∧
  (named "host" armed ∨ idle armed) ∧
  sampleRun armed [conflict1; conflict1; HostnameTimeout]
    = Some (sampleAfter armed [conflict1; conflict1; HostnameTimeout],
            sampleOutput armed [conflict1; conflict1; HostnameTimeout]) ∧
  ((named "host" (sampleAfter armed [conflict1; conflict1; HostnameTimeout]) ∨
    idle (sampleAfter armed [conflict1; conflict1; HostnameTimeout])) ∧
   announcesCandidates "host"
     (sampleOutput armed [conflict1; conflict1; HostnameTimeout])).
Proof.
  assert (named "host" armed ∨ idle armed) as Hinv
    by (left; split; [vm_compute; discriminate|reflexivity]).
  assert (sampleRun armed [conflict1; conflict1; HostnameTimeout]
          = Some (sampleAfter armed [conflict1; conflict1; HostnameTimeout],
                  sampleOutput armed [conflict1; conflict1; HostnameTimeout]))
    as Hrun by (vm_compute; reflexivity).
  split; [reflexivity|]. split; [exact Hinv|]. split; [exact Hrun|].
  exact (candidate_follows_counter true "host" sampleToPacket sampleFromPacket
           armed _ _ _ eq_refl Hinv Hrun).
Defined.

(** C6, the claim as stated fails: a datagram read from the IPv4 socket
    whose sender address is not an IPv4 address (here the null address that
    a failed [readDatagram] leaves) is announced with the family IPv6. *)
Lemma family_taken_from_sender :
  sampleFromPacket [Byte.x01] = Some (claimOf "host.local.") ∧
  isBound (mIpv4Socket started) = true ∧
  ∃ m rest,
    sampleRun started [ReadyRead IPv4 [Byte.x01] nullAddress 0%N]
      = Some (sampleAfter started [ReadyRead IPv4 [Byte.x01] nullAddress 0%N],
              EmitMessageReceived m :: rest) ∧
    protocol m = IPv6 ∧ protocol m ≠ IPv4.
Proof.
  split; [reflexivity|]. split; [reflexivity|].
  eexists _, _. split; [vm_compute; reflexivity|]. by split.
Qed.

Lemma onReadyRead_annotates_witness :
  sampleFromPacket [Byte.x01] = Some (claimOf "host.local.") ∧
  ∃ m,
    (address m = peer6 ∧ port m = 5353%N ∧
     protocol m = (if bool_decide (addrProtocol peer6 = IPv4Protocol)
                   then IPv4 else IPv6) ∧
     (addrProtocol peer6 = familyOf IPv6 → protocol m = IPv6)) ∧
    (isResponse m = isResponse (claimOf "host.local.") ∧
     queries m = queries (claimOf "host.local.") ∧
     records m = records (claimOf "host.local.")) ∧
    handle true "host" sampleToPacket sampleFromPacket conflict1 started =
      (emit (EmitMessageReceived m)
       >> onMessageReceived "host" sampleToPacket m) started.
Proof.
  split; [reflexivity|].
  apply (onReadyRead_annotates true "host" sampleToPacket sampleFromPacket
           started IPv6 [Byte.x01] peer6 5353%N (claimOf "host.local.")).
  reflexivity.
Defined.

Lemma no_conflict_no_retry_witness :
  (isResponse harmless = false ∨
   Forall (λ r, (recType r ≠ A ∧ recType r ≠ AAAA) ∨
                recName r ≠ mHostname started ∨ recTtl r = 0%N)
     (records harmless)) ∧
  onMessageReceived "host" sampleToPacket harmless started = (started, []).
Proof.
  assert (isResponse harmless = false ∨
          Forall (λ r, (recType r ≠ A ∧ recType r ≠ AAAA) ∨
                       recName r ≠ mHostname started ∨ recTtl r = 0%N)
            (records harmless)) as Hyp.
  { right.
    constructor; [left; split; discriminate|].
    constructor; [right; left; vm_compute; discriminate|].
    constructor; [right; right; reflexivity|].
    constructor. }
  split; [exact Hyp|].
  exact (no_conflict_no_retry "host" sampleToPacket started harmless Hyp).
Defined.

Lemma decode_failure_dropped_witness :
  sampleFromPacket [Byte.xff; Byte.x01] = None ∧
  handle true "host" sampleToPacket sampleFromPacket
    (ReadyRead IPv4 [Byte.xff; Byte.x01] lan4 5353%N) started = (started, []).
Proof.
  split; [reflexivity|].
  apply (decode_failure_dropped true "host" sampleToPacket sampleFromPacket
           started IPv4 [Byte.xff; Byte.x01] lan4 5353%N).
  reflexivity.
Defined.

Lemma first_match_only_witness :
  isResponse crowded = true ∧
  records crowded =
    [{| recName := "printer.local."; recType := A; recTtl := 120%N |}]
    ++ {| recName := "host.local."; recType := AAAA; recTtl := 120%N |}
       :: [{| recName := "host.local."; recType := A; recTtl := 120%N |};
           {| recName := "host-1.local."; recType := A; recTtl := 120%N |}] ∧
  Forall (λ r, conflicts (mHostname started) r = false)
    [{| recName := "printer.local."; recType := A; recTtl := 120%N |}] ∧
  conflicts (mHostname started)
    {| recName := "host.local."; recType := AAAA; recTtl := 120%N |} = true ∧
  mHostnameConfirmed started = false ∧
  onMessageReceived "host" sampleToPacket crowded started =
    (probed
       (setHostname (retryName "host" (mHostnameSuffix started))
          (setHostnameSuffix (mHostnameSuffix started + 1) started)),
     [probeDatagram sampleToPacket (retryName "host" (mHostnameSuffix started)) IPv4;
      probeDatagram sampleToPacket (retryName "host" (mHostnameSuffix started)) IPv6]).
Proof.
  split; [reflexivity|]. split; [reflexivity|].
  split; [by repeat constructor|]. split; [by vm_compute|].
  split; [reflexivity|].
  apply (first_match_only "host" sampleToPacket started crowded
           [{| recName := "printer.local."; recType := A; recTtl := 120%N |}]
           {| recName := "host.local."; recType := AAAA; recTtl := 120%N |}
           [{| recName := "host.local."; recType := A; recTtl := 120%N |};
            {| recName := "host-1.local."; recType := A; recTtl := 120%N |}]).
  - reflexivity.
  - reflexivity.
  - by repeat constructor.
  - by vm_compute.
  - reflexivity.
Defined.

Lemma hostnameConfirmed_never_emitted_witness :
  run true "host" sampleToPacket sampleFromPacket
      (construct true "host" sampleToPacket host6 0).1
      [conflict1; SocketTimeout host6; conflict1]
    = Some (sampleAfter started [conflict1; SocketTimeout host6; conflict1],
            sampleOutput started [conflict1; SocketTimeout host6; conflict1]) ∧
  confirmations
    ((construct true "host" sampleToPacket host6 0).2
     ++ sampleOutput started [conflict1; SocketTimeout host6; conflict1]) = 0%nat ∧
  mHostnameConfirmed
    (sampleAfter started [conflict1; SocketTimeout host6; conflict1]) = false.
Proof.
  split; [vm_compute; reflexivity|].
  apply (hostnameConfirmed_never_emitted true "host" sampleToPacket
           sampleFromPacket host6 0 [conflict1; SocketTimeout host6; conflict1]
           (sampleAfter started [conflict1; SocketTimeout host6; conflict1])
           (sampleOutput started [conflict1; SocketTimeout host6; conflict1])).
  vm_compute. reflexivity.
Defined.



(** ** The further properties on the sample host *)

Local Abbreviation fresh := (members 0).

Local Abbreviation confirmedState := (sampleAfter armed [HostnameTimeout]).

Lemma bindSocket_reports_witness :
  isBound (socketOf IPv4 fresh) = false ∧
  (isBound (socketOf IPv4 (bindSocket true hostBusy IPv4 AnyIPv4 fresh).1)
     = bindResult true hostBusy IPv4 AnyIPv4 ∧
   (EmitError (BindError IPv4) ∈ (bindSocket true hostBusy IPv4 AnyIPv4 fresh).2 ↔
    isBound (socketOf IPv4 (bindSocket true hostBusy IPv4 AnyIPv4 fresh).1) = false) ∧
   memberships (socketOf IPv4 (bindSocket true hostBusy IPv4 AnyIPv4 fresh).1)
     = memberships (socketOf IPv4 fresh) ∧
   (∀ sock', IPv4 ≠ sock' →
      socketOf sock' (bindSocket true hostBusy IPv4 AnyIPv4 fresh).1
        = socketOf sock' fresh) ∧
   frameSockets fresh (bindSocket true hostBusy IPv4 AnyIPv4 fresh).1).
Proof.
  split; [reflexivity|].
  apply (bindSocket_reports true hostBusy IPv4 AnyIPv4 fresh). reflexivity.
Defined.

Lemma socket_timer_always_running_witness :
  run true "host" sampleToPacket sampleFromPacket
      (construct true "host" sampleToPacket host6 0).1
      [conflict1; SocketTimeout hostBusy; conflict1]
    = Some (sampleAfter started [conflict1; SocketTimeout hostBusy; conflict1],
            sampleOutput started [conflict1; SocketTimeout hostBusy; conflict1]) ∧
  (singleShot (mSocketTimer
     (sampleAfter started [conflict1; SocketTimeout hostBusy; conflict1])) = true ∧
   isActive (mSocketTimer
     (sampleAfter started [conflict1; SocketTimeout hostBusy; conflict1])) = true ∧
   interval (mSocketTimer
     (sampleAfter started [conflict1; SocketTimeout hostBusy; conflict1])) = 60000).
Proof.
  split; [vm_compute; reflexivity|].
  apply (socket_timer_always_running true "host" sampleToPacket sampleFromPacket
           host6 0 [conflict1; SocketTimeout hostBusy; conflict1]
           (sampleAfter started [conflict1; SocketTimeout hostBusy; conflict1])
           (sampleOutput started [conflict1; SocketTimeout hostBusy; conflict1])).
  vm_compute. reflexivity.
Defined.

Lemma sockets_only_grow_witness :
  sampleRun started [conflict1; SocketTimeout hostBusy; SocketTimeout host6deaf]
    = Some (sampleAfter started
              [conflict1; SocketTimeout hostBusy; SocketTimeout host6deaf],
            sampleOutput started
              [conflict1; SocketTimeout hostBusy; SocketTimeout host6deaf]) ∧
  ∀ sock,
    (isBound (socketOf sock started) = true →
     isBound
       (socketOf sock
          (sampleAfter started
             [conflict1; SocketTimeout hostBusy; SocketTimeout host6deaf])) = true) ∧
    memberships (socketOf sock started)
      ⊆ memberships
          (socketOf sock
             (sampleAfter started
                [conflict1; SocketTimeout hostBusy; SocketTimeout host6deaf])).
Proof.
  split; [vm_compute; reflexivity|].
  apply (sockets_only_grow true "host" sampleToPacket sampleFromPacket started
           [conflict1; SocketTimeout hostBusy; SocketTimeout host6deaf]
           (sampleAfter started
              [conflict1; SocketTimeout hostBusy; SocketTimeout host6deaf])
           (sampleOutput started
              [conflict1; SocketTimeout hostBusy; SocketTimeout host6deaf])).
  vm_compute. reflexivity.
Defined.


Lemma bound_sockets_not_rebound_witness :
  isBound (mIpv4Socket started) = true ∧ isBound (mIpv6Socket started) = true ∧
  (Forall (λ e, isError e = false)
     (onSocketTimeout true "host" sampleToPacket hostBusy started).2 ∧
   ∀ sock,
     state (socketOf sock
              (onSocketTimeout true "host" sampleToPacket hostBusy started).1)
       = BoundState).
Proof.
  split; [reflexivity|]. split; [reflexivity|].
  apply (bound_sockets_not_rebound true "host" sampleToPacket hostBusy started);
    reflexivity.
Defined.

Lemma nothing_bound_nothing_done_witness :
  isBound (mIpv4Socket fresh) = false ∧ isBound (mIpv6Socket fresh) = false ∧
  bindResult true hostBusy IPv4 AnyIPv4 = false ∧
  bindResult true hostBusy IPv6 AnyIPv6 = false ∧
  (sockets (onSocketTimeout true "host" sampleToPacket hostBusy fresh).1
     = sockets fresh ∧
   frameSockets
     (setSocketTimer (start (60 * 1000) (mSocketTimer fresh)) fresh)
     (onSocketTimeout true "host" sampleToPacket hostBusy fresh).1 ∧
   Forall (λ e, isError e = true)
     (onSocketTimeout true "host" sampleToPacket hostBusy fresh).2 ∧
   EmitError (BindError IPv4)
     ∈ (onSocketTimeout true "host" sampleToPacket hostBusy fresh).2 ∧
   EmitError (BindError IPv6)
     ∈ (onSocketTimeout true "host" sampleToPacket hostBusy fresh).2).
Proof.
  split; [reflexivity|]. split; [reflexivity|].
  split; [reflexivity|]. split; [reflexivity|].
  apply (nothing_bound_nothing_done true "host" sampleToPacket hostBusy fresh);
    reflexivity.
Defined.

Lemma confirmed_server_is_silent_witness :
  mHostnameConfirmed confirmedState = true ∧
  sampleRun confirmedState [conflict1; SocketTimeout host6; conflict1]
    = Some (sampleAfter confirmedState [conflict1; SocketTimeout host6; conflict1],
            sampleOutput confirmedState
              [conflict1; SocketTimeout host6; conflict1]) ∧
  (Forall (λ e, isWrite e = false)
     (sampleOutput confirmedState [conflict1; SocketTimeout host6; conflict1]) ∧
   mHostnameConfirmed
     (sampleAfter confirmedState [conflict1; SocketTimeout host6; conflict1])
     = true ∧
   mHostname
     (sampleAfter confirmedState [conflict1; SocketTimeout host6; conflict1])
     = mHostname confirmedState ∧
   mHostnameSuffix
     (sampleAfter confirmedState [conflict1; SocketTimeout host6; conflict1])
     = mHostnameSuffix confirmedState).
Proof.
  split; [vm_compute; reflexivity|]. split; [vm_compute; reflexivity|].
  apply (confirmed_server_is_silent true "host" sampleToPacket sampleFromPacket
           confirmedState [conflict1; SocketTimeout host6; conflict1]
           (sampleAfter confirmedState [conflict1; SocketTimeout host6; conflict1])
           (sampleOutput confirmedState
              [conflict1; SocketTimeout host6; conflict1])).
  - vm_compute. reflexivity.
  - vm_compute. reflexivity.
Defined.


Lemma onReadyRead_output_witness :
  sampleFromPacket [Byte.x02] = Some crowded ∧
  (handle true "host" sampleToPacket sampleFromPacket
     (ReadyRead IPv6 [Byte.x02] peer6 5353%N) started).2 =
    EmitMessageReceived (annotate peer6 5353%N crowded)
    :: (if isResponse crowded
           && existsb (conflicts (mHostname started)) (records crowded)
           && negb (mHostnameConfirmed started)
        then [probeDatagram sampleToPacket
                (retryName "host" (mHostnameSuffix started)) IPv4;
              probeDatagram sampleToPacket
                (retryName "host" (mHostnameSuffix started)) IPv6]
        else []).
Proof.
  split; [reflexivity|].
  apply (onReadyRead_output true "host" sampleToPacket sampleFromPacket
           IPv6 [Byte.x02] peer6 5353%N crowded started).
  reflexivity.
Defined.

Lemma join_failures_silent_witness :
  sameButJoins host6 host6deaf ∧
  (onSocketTimeout true "host" sampleToPacket host6deaf fresh).2
    = (onSocketTimeout true "host" sampleToPacket host6 fresh).2 ∧
  frameSockets
    (onSocketTimeout true "host" sampleToPacket host6 fresh).1
    (onSocketTimeout true "host" sampleToPacket host6deaf fresh).1.
Proof.
  assert (sameButJoins host6 host6deaf) as Hsame by (by repeat split).
  split; [exact Hsame|].
  exact (join_failures_silent true "host" sampleToPacket host6 host6deaf fresh
           Hsame).
Defined.

Lemma tick_restarts_probing_witness :
  mHostnameConfirmed (sampleAfter started [conflict1]) = false ∧
  isBound (mIpv4Socket
    (onSocketTimeout true "host" sampleToPacket host6
       (sampleAfter started [conflict1])).1)
  || isBound (mIpv6Socket
    (onSocketTimeout true "host" sampleToPacket host6
       (sampleAfter started [conflict1])).1) = true ∧
  (mHostname
     (onSocketTimeout true "host" sampleToPacket host6
        (sampleAfter started [conflict1])).1 = "host" +:+ ".local." ∧
   mHostnameSuffix
     (onSocketTimeout true "host" sampleToPacket host6
        (sampleAfter started [conflict1])).1 = 1 ∧
   ∃ before,
     (onSocketTimeout true "host" sampleToPacket host6
        (sampleAfter started [conflict1])).2
       = before ++ bareProbes "host" sampleToPacket ∧
     Forall (λ e, isWrite e = false) before).
Proof.
  split; [vm_compute; reflexivity|]. split; [vm_compute; reflexivity|].
  apply (tick_restarts_probing true "host" sampleToPacket host6
           (sampleAfter started [conflict1])).
  - vm_compute. reflexivity.
  - vm_compute. reflexivity.
Defined.

Lemma one_family_bound_witness :
  isBound (mIpv4Socket fresh) = false ∧ isBound (mIpv6Socket fresh) = false ∧
  mHostnameConfirmed fresh = false ∧
  bindResult true host6only IPv4 AnyIPv4 = false ∧
  bindResult true host6only IPv6 AnyIPv6 = true ∧
  ((isBound (mIpv4Socket (bindSockets true host6only fresh).1) = false ∧
    isBound (mIpv4Socket
      (onSocketTimeout true "host" sampleToPacket host6only fresh).1) = true ∧
    memberships (mIpv4Socket
      (onSocketTimeout true "host" sampleToPacket host6only fresh).1)
      = memberships (mIpv4Socket fresh) ∧
    isBound (mIpv6Socket
      (onSocketTimeout true "host" sampleToPacket host6only fresh).1) = true) ∧
   (EmitError (BindError IPv4)
      ∈ (onSocketTimeout true "host" sampleToPacket host6only fresh).2 ∧
    EmitError (BindError IPv6)
      ∉ (onSocketTimeout true "host" sampleToPacket host6only fresh).2) ∧
   (∀ sock group interface,
      JoinMulticastGroup sock group interface
        ∈ (onSocketTimeout true "host" sampleToPacket host6only fresh).2 →
      sock = IPv6) ∧
   mHostname (onSocketTimeout true "host" sampleToPacket host6only fresh).1
     = "host" +:+ ".local." ∧
   (probeDatagram sampleToPacket ("host" +:+ ".local.") IPv4
      ∈ (onSocketTimeout true "host" sampleToPacket host6only fresh).2 ∧
    probeDatagram sampleToPacket ("host" +:+ ".local.") IPv6
      ∈ (onSocketTimeout true "host" sampleToPacket host6only fresh).2)).
Proof.
  split; [reflexivity|]. split; [reflexivity|]. split; [reflexivity|].
  split; [reflexivity|]. split; [reflexivity|].
  apply (one_family_bound true "host" sampleToPacket host6only fresh);
    reflexivity.
Defined.
